(** * git-manager.py: the local sync orchestrator and its neighbours

    A shallow embedding of [src/git-manager.py].  The program is glue: every
    function is a sequence of calls into the outside world (the terminal, the
    file system, the [git] executable, GitPython, the PyGithub client) with
    branching on what those calls return or raise.  The embedding keeps the
    glue concrete (branching, sequencing, [try]/[except]/[finally], string
    formatting) and takes the outside world as a [Platform]: an abstract
    state with the operations the program calls on it.  Every interaction is
    recorded in a trace, so that "is launched", "is never launched" and
    "exactly once" are statements about the trace.

    Python [str] values are Rocq strings holding the UTF-8 encoding of the
    text. *)

From Stdlib Require Import String Ascii List ZArith Lia Bool Arith DecimalString.
Import ListNotations.
Open Scope list_scope.
Open Scope string_scope.

Set Implicit Arguments.

(** List append, apart from the [++] of strings. *)
Infix "+++" := app (right associativity, at level 60, only parsing).

(* ================================================================= *)
(** ** Python strings *)

Module Py.

Definition NL : string := String (ascii_of_nat 10) EmptyString.
Definition SQ : ascii := ascii_of_nat 39.   (* ' *)
Definition DQ : ascii := ascii_of_nat 34.   (* the double quote *)
Definition BSL : ascii := ascii_of_nat 92.  (* \ *)

(** [s.startswith(p)] *)
Definition startswith (s p : string) : bool := String.prefix p s.

(** [sub in s] *)
Fixpoint contains (sub s : string) : bool :=
  String.prefix sub s ||
  match s with
  | EmptyString => false
  | String _ s' => contains sub s'
  end.

(** [s.replace(old, new)] for a non-empty [old]: the occurrences of [old]
    are found left to right and do not overlap.  [skip] counts the
    characters of a matched occurrence that are still to be dropped. *)
Fixpoint replace_from (old new : string) (skip : nat) (s : string) : string :=
  match s with
  | EmptyString => EmptyString
  | String c s' =>
      match skip with
      | S k => replace_from old new k s'
      | O =>
          if String.prefix old s
          then new ++ replace_from old new (String.length old - 1) s'
          else String c (replace_from old new 0 s')
      end
  end.

(** With an empty [old] Python puts [new] before every character and at the
    end. *)
Fixpoint intersperse_all (new s : string) : string :=
  match s with
  | EmptyString => new
  | String c s' => new ++ String c (intersperse_all new s')
  end.

Definition replace (s old new : string) : string :=
  match old with
  | EmptyString => intersperse_all new s
  | _ => replace_from old new 0 s
  end.

(** [sep.join(l)] *)
Fixpoint join (sep : string) (l : list string) : string :=
  match l with
  | [] => EmptyString
  | [x] => x
  | x :: l' => x ++ sep ++ join sep l'
  end.

Fixpoint rev_string (acc s : string) : string :=
  match s with
  | EmptyString => acc
  | String c s' => rev_string (String c acc) s'
  end.

Definition reverse (s : string) : string := rev_string EmptyString s.

Definition str_of_bytes (l : list nat) : string :=
  fold_right (fun n s => String (ascii_of_nat n) s) EmptyString l.

(** The characters [str.strip()] removes: those for which [str.isspace()]
    holds, here as their UTF-8 encodings.  U+0009..U+000D, U+001C..U+0020,
    U+0085, U+00A0, U+1680, U+2000..U+200A, U+2028, U+2029, U+202F, U+205F,
    U+3000. *)
Definition whitespace : list string :=
  map str_of_bytes
    ([[9]; [10]; [11]; [12]; [13]; [28]; [29]; [30]; [31]; [32];
      [194; 133]; [194; 160]; [225; 154; 128]]
     ++ map (fun k => [226; 128; 128 + k]) (seq 0 11)
     ++ [[226; 128; 168]; [226; 128; 169]; [226; 128; 175];
         [226; 129; 159]; [227; 128; 128]]).

Fixpoint drop (n : nat) (s : string) : string :=
  match n, s with
  | S k, String _ s' => drop k s'
  | _, _ => s
  end.

Fixpoint lstrip_with (ws : list string) (fuel : nat) (s : string) : string :=
  match fuel with
  | O => s
  | S k =>
      match find (fun t => String.prefix t s) ws with
      | Some t => lstrip_with ws k (drop (String.length t) s)
      | None => s
      end
  end.

Definition lstrip (s : string) : string :=
  lstrip_with whitespace (String.length s) s.

Definition rstrip (s : string) : string :=
  reverse (lstrip_with (map reverse whitespace) (String.length s) (reverse s)).

(** [s.strip()] *)
Definition strip (s : string) : string := rstrip (lstrip s).

(** [s.rstrip(c)] for a single character [c] *)
Definition rstrip_char (c : ascii) (s : string) : string :=
  reverse (lstrip_with [String c EmptyString] (String.length s) (reverse s)).

(** ["%d" % z] *)
Definition str_of_Z (z : Z) : string := NilZero.string_of_int (Z.to_int z).

(** Truth value of a string: the empty string is false. *)
Definition truthy (s : string) : bool :=
  match s with EmptyString => false | _ => true end.

(** *** [repr] of a string

    Python quotes with ['] unless the text has a ['] and no double quote,
    and escapes the backslash, the quote in use, tab, newline, carriage
    return and the other characters that are not printable.  Bytes from 128
    up belong to the encoding of a character outside ASCII, which [repr]
    leaves as it is when the character is printable; the escapes of
    unprintable characters outside ASCII are not modelled. *)

Definition hex_digit (n : nat) : ascii :=
  ascii_of_nat (if (n <? 10)%nat then 48 + n else 87 + n).

Definition escape_char (quote c : ascii) : string :=
  let n := nat_of_ascii c in
  if Ascii.eqb c BSL then String BSL (String BSL EmptyString)
  else if Ascii.eqb c quote then String BSL (String quote EmptyString)
  else if (n =? 9)%nat then String BSL "t"
  else if (n =? 10)%nat then String BSL "n"
  else if (n =? 13)%nat then String BSL "r"
  else if ((n <? 32) || (n =? 127))%nat
       then String BSL (String "x" (String (hex_digit (n / 16))
                                      (String (hex_digit (n mod 16)) EmptyString)))
  else String c EmptyString.

Fixpoint escape (quote : ascii) (s : string) : string :=
  match s with
  | EmptyString => EmptyString
  | String c s' => escape_char quote c ++ escape quote s'
  end.

Definition has_char (c : ascii) (s : string) : bool :=
  contains (String c EmptyString) s.

Definition repr (s : string) : string :=
  let quote := if has_char SQ s && negb (has_char DQ s) then DQ else SQ in
  String quote (escape quote s ++ String quote EmptyString).

(** [str(l)] of a list of strings *)
Definition str_of_list (l : list string) : string :=
  "[" ++ join ", " (map repr l) ++ "]".

(** *** [posixpath] *)

Definition endswith_sep (s : string) : bool :=
  match reverse s with
  | String c _ => Ascii.eqb c "/"
  | EmptyString => false
  end.

(** [os.path.join(a, b)] *)
Definition path_join (a b : string) : string :=
  if startswith b "/" then b
  else if negb (truthy a) || endswith_sep a then a ++ b
  else a ++ "/" ++ b.

(** [p[:p.rfind("/") + 1]] and [p[p.rfind("/") + 1:]] *)
Fixpoint split_last_sep (p : string) : string * string :=
  match p with
  | EmptyString => (EmptyString, EmptyString)
  | String c p' =>
      let '(h, t) := split_last_sep p' in
      if Ascii.eqb c "/"
      then if has_char "/" p' then (String c h, t) else (String c EmptyString, p')
      else if has_char "/" p' then (String c h, t) else (EmptyString, p)
  end.

Fixpoint all_sep (s : string) : bool :=
  match s with
  | EmptyString => true
  | String c s' => Ascii.eqb c "/" && all_sep s'
  end.

(** [os.path.dirname(p)] *)
Definition dirname (p : string) : string :=
  let head := fst (split_last_sep p) in
  if truthy head && negb (all_sep head) then rstrip_char "/" head else head.

(** [os.path.basename(p)] *)
Definition basename (p : string) : string := snd (split_last_sep p).

End Py.

(* ================================================================= *)
(** ** The outside world *)

(** Exceptions.  [CalledProcessError] is what [subprocess.run(check=True)]
    and [subprocess.check_output] raise on a non-zero exit status; every
    other exception the program can meet ([OSError], [EOFError],
    GitPython's and PyGithub's errors) is a [PyException] carrying its
    [str()]. *)
Inductive exn : Type :=
| CalledProcessError (cmd : list string) (returncode : Z)
| PyException (text : string).

(** Calls into the file system, GitPython and the PyGithub client that
    return nothing the program looks at, and may raise. *)
Inductive syscall : Type :=
| Makedirs (path : string)                 (* os.makedirs(path, exist_ok=True) *)
| AppendFile (path line : string)          (* open(path, "a"), write(line) *)
| Rmtree (path : string)                   (* shutil.rmtree(path) *)
| Remove (path : string)                   (* os.remove(path) *)
| Copytree (src dst : string)              (* shutil.copytree(src, dst, dirs_exist_ok=True) *)
| Copy2 (src dst : string)                 (* shutil.copy2(src, dst) *)
| GitCloneFrom (url dir branch : string)   (* git.Repo.clone_from(url, dir, branch=branch) *)
| GitRepo (dir : string)                   (* git.Repo(dir) *)
| GitAddAll (dir : string)                 (* git_repo.git.add(A=True) *)
| GitIndexCommit (dir message : string)    (* git_repo.index.commit(message) *)
| GitRemote (dir name : string)            (* git_repo.remote(name=name) *)
| GitRemotePush (dir name : string)        (* origin.push() *)
| ApiGetGitRef (repo ref : string)         (* repo.get_git_ref(ref) *)
| ApiRefDelete (repo ref : string).        (* ref.delete() *)

(** What the program did to the outside world, in order. *)
Inductive event : Type :=
| EPrompt (text : string)                          (* Prompt.ask read a line *)
| ESpawn (cmd : list string) (status : option Z)   (* a subprocess; [None]: it could not be started *)
| ECall (c : syscall) (ok : bool)                  (* [ok = false]: the call raised *)
| EMkdtemp (dir : option string).                  (* tempfile.mkdtemp *)

(** The operations of the outside world on its state [X] (file system,
    repositories, remote service, clock). *)
Record Platform (X : Type) : Type := mkPlatform {
  os_path_isdir : string -> X -> bool;
  os_path_exists : string -> X -> bool;
  os_path_expanduser : string -> X -> string;
  os_path_abspath : string -> X -> string;
  (* datetime.now().strftime('%Y-%m-%d %H:%M:%S') *)
  datetime_now : X -> string;
  (* repr(signal.Signals(n)), [None] when it raises ValueError *)
  signal_repr : Z -> option string;
  (* [None]: the call returned; [Some text]: it raised, with that str() *)
  perform : syscall -> X -> option string * X;
  (* [inl text]: the process could not be started; [inr (status, stdout)] *)
  spawn : list string -> X -> (string + Z * string) * X;
  (* tempfile.mkdtemp(prefix=...) *)
  tempfile_mkdtemp : string -> X -> (string + string) * X
}.

(** A repository handle of the PyGithub client, through the attributes the
    program reads. *)
Record Repository : Type := mkRepository {
  name : string;
  full_name : string;
  owner_login : string;
  default_branch : string
}.

(** The outcome of running a piece of the program. *)
Inductive Res (A : Type) : Type :=
| Ok (a : A)
| Raise (e : exn).
Arguments Raise {A} e.

Inductive loop_ctl : Type := Continue | Break.

Section Model.

Variable X : Type.
Variable P : Platform X.

Record World : Type := mkWorld {
  ext : X;                       (* the outside world *)
  stdin : list string;           (* the lines the user is going to type *)
  console_out : list string;     (* what console.print was given *)
  trace : list event
}.

Definition M (A : Type) : Type := World -> Res A * World.

Definition ret {A} (a : A) : M A := fun w => (Ok a, w).

Definition bind {A B} (m : M A) (f : A -> M B) : M B :=
  fun w => match m w with
           | (Ok a, w') => f a w'
           | (Raise e, w') => (Raise e, w')
           end.

(** [try: body / except ... as e: handler]: [handler e] is [None] when no
    [except] clause matches [e]. *)
Definition try_except {A} (body : M A) (handler : exn -> option (M A)) : M A :=
  fun w => match body w with
           | (Ok a, w') => (Ok a, w')
           | (Raise e, w') =>
               match handler e with
               | Some h => h w'
               | None => (Raise e, w')
               end
           end.

(** [try: body / finally: final] *)
Definition try_finally {A} (body : M A) (final : M unit) : M A :=
  fun w => let '(r, w') := body w in
           match final w' with
           | (Ok _, w'') => (r, w'')
           | (Raise e, w'') => (Raise e, w'')
           end.

Notation "x <- m ;; k" := (bind m (fun x => k))
  (at level 61, m at next level, right associativity).
Notation "m ;;; k" := (bind m (fun _ => k))
  (at level 61, right associativity).

Definition record (e : event) (x : X) (w : World) : World :=
  mkWorld x (stdin w) (console_out w) (trace w ++ [e]).

(** [console.print(text)] *)
Definition console_print (text : string) : M unit :=
  fun w => (Ok tt, mkWorld (ext w) (stdin w) (console_out w ++ [text]) (trace w)).

(** What [Prompt.ask] of rich makes of the line the user typed: an empty
    line gives the default when there is one, any other line is returned
    stripped. *)
Definition prompt_value (line : string) (default : option string) : string :=
  match line, default with
  | EmptyString, Some d => d
  | _, _ => Py.strip line
  end.

(** [Prompt.ask(prompt, default=...)]: one line is read.  At end of input
    [input()] raises [EOFError]. *)
Definition Prompt_ask (prompt : string) (default : option string) : M string :=
  fun w => match stdin w with
           | [] => (Raise (PyException "EOF when reading a line"),
                    record (EPrompt prompt) (ext w) w)
           | line :: rest =>
               (Ok (prompt_value line default),
                mkWorld (ext w) rest (console_out w) (trace w ++ [EPrompt prompt]))
           end.

Definition isdir (path : string) : M bool :=
  fun w => (Ok (os_path_isdir P path (ext w)), w).

Definition exists_ (path : string) : M bool :=
  fun w => (Ok (os_path_exists P path (ext w)), w).

Definition call (c : syscall) : M unit :=
  fun w => match perform P c (ext w) with
           | (None, x') => (Ok tt, record (ECall c true) x' w)
           | (Some text, x') => (Raise (PyException text), record (ECall c false) x' w)
           end.

(** [subprocess.run(cmd, check=check)], giving the return code. *)
Definition subprocess_run (cmd : list string) (check : bool) : M Z :=
  fun w => match spawn P cmd (ext w) with
           | (inl text, x') => (Raise (PyException text), record (ESpawn cmd None) x' w)
           | (inr (rc, _), x') =>
               let w' := record (ESpawn cmd (Some rc)) x' w in
               if check && negb (rc =? 0)%Z
               then (Raise (CalledProcessError cmd rc), w')
               else (Ok rc, w')
           end.

(** [subprocess.check_output(cmd, text=True)] *)
Definition subprocess_check_output (cmd : list string) : M string :=
  fun w => match spawn P cmd (ext w) with
           | (inl text, x') => (Raise (PyException text), record (ESpawn cmd None) x' w)
           | (inr (rc, out), x') =>
               let w' := record (ESpawn cmd (Some rc)) x' w in
               if negb (rc =? 0)%Z
               then (Raise (CalledProcessError cmd rc), w')
               else (Ok out, w')
           end.

(** [str(e)]; for [CalledProcessError] this is its [__str__]. *)
Definition str_exn (e : exn) : string :=
  match e with
  | CalledProcessError cmd rc =>
      if (rc <? 0)%Z
      then match signal_repr P (- rc) with
           | Some r => "Command '" ++ Py.str_of_list cmd ++ "' died with " ++ r ++ "."
           | None => "Command '" ++ Py.str_of_list cmd ++ "' died with unknown signal "
                       ++ Py.str_of_Z (- rc) ++ "."
           end
      else "Command '" ++ Py.str_of_list cmd ++ "' returned non-zero exit status "
             ++ Py.str_of_Z rc ++ "."
  | PyException text => text
  end.

(* ----------------------------------------------------------------- *)
(** *** Configuration and the logging helper *)

Definition REPO_PATH : string := "/home/gost/all-project/git-all/7heBlackLand.github.io".
Definition DEFAULT_COMMIT_MSG : string := "Welcome to Blackland".
Definition LOG_FILE : string := Py.path_join "/home/gost/all-project/git-all" "git_actions.log".

(** [log_action]: whatever goes wrong is swallowed. *)
Definition log_action (action_text : string) : M unit :=
  try_except
    (call (Makedirs (Py.dirname LOG_FILE)) ;;;
     fun w => call (AppendFile LOG_FILE
                      ("[" ++ datetime_now P (ext w) ++ "] " ++ action_text ++ Py.NL)) w)
    (fun _ => Some (ret tt)).

(* ----------------------------------------------------------------- *)
(** *** Local git sync manager *)

(** [run_shell] *)
Definition run_shell (cmd : list string) (silent : bool) : M unit :=
  (if negb silent then console_print ("🚀 Running: " ++ Py.join " " cmd) else ret tt) ;;;
  subprocess_run cmd true ;;;
  ret tt.

(** Truth value of an optional string: [None] and the empty string are
    false. *)
Definition truthy_opt (o : option string) : bool :=
  match o with Some s => Py.truthy s | None => false end.

(** [f"{token}"] of an optional string *)
Definition format_opt (o : option string) : string :=
  match o with Some s => s | None => "None" end.

(** The URL handed to [git clone] in [ensure_local_repo]. *)
Definition safe_url (repo_url : string) (token : option string) : string :=
  if Py.startswith repo_url "https://" && negb (Py.contains "@" repo_url) && truthy_opt token
  then Py.replace repo_url "https://" ("https://" ++ format_opt token ++ "@")
  else repo_url.

Definition is_CalledProcessError (e : exn) : bool :=
  match e with CalledProcessError _ _ => true | PyException _ => false end.

Definition ensure_local_repo (repo_path : string) (default_clone_url token : option string)
  : M bool :=
  d <- isdir repo_path ;;
  g <- (if d then isdir (Py.path_join repo_path ".git") else ret false) ;;
  if g then ret true else
  console_print ("⚠️ Repository not found at: [yellow]" ++ repo_path ++ "[/yellow]" ++ Py.NL) ;;;
  console_print "1) Clone a new repository" ;;;
  console_print "2) Cancel / Exit" ;;;
  answer <- Prompt_ask (Py.NL ++ "👉 Enter your choice (1-2)") (Some "2") ;;
  let choice := Py.strip answer in
  if negb (choice =? "1") then
    console_print "👋 Cancelled by user. Exiting local sync." ;;;
    ret false
  else
  repo_url <- Prompt_ask (Py.NL ++ "🌐 Enter GitHub repository URL to clone (HTTPS preferred)") None ;;
  if negb (Py.truthy repo_url) then
    console_print "❌ No URL provided. Exiting..." ;;;
    ret false
  else
  try_except
    (call (Makedirs (Py.dirname repo_path)) ;;;
     run_shell ["git"; "clone"; safe_url repo_url token; repo_path] false ;;;
     console_print ("✅ Repository cloned successfully into: [green]" ++ repo_path
                      ++ "[/green]" ++ Py.NL) ;;;
     log_action ("Cloned repository from " ++ repo_url ++ " to " ++ repo_path) ;;;
     ret true)
    (fun e =>
       if is_CalledProcessError e then
         Some (console_print ("❌ Failed to clone repository: " ++ str_exn e) ;;;
               log_action ("Failed to clone repository: " ++ str_exn e) ;;;
               ret false)
       else None).

Definition git_remote_get_url (repo_path : string) : list string :=
  ["git"; "-C"; repo_path; "remote"; "get-url"; "origin"].
Definition git_remote_set_url (repo_path new_url : string) : list string :=
  ["git"; "-C"; repo_path; "remote"; "set-url"; "origin"; new_url].

Definition fix_local_remote_with_token (repo_path token : string) : M unit :=
  try_except
    (out <- subprocess_check_output (git_remote_get_url repo_path) ;;
     let origin_url := Py.strip out in
     if Py.startswith origin_url "https://" && negb (Py.contains "@" origin_url) then
       let new_url := Py.replace origin_url "https://" ("https://" ++ token ++ "@") in
       subprocess_run (git_remote_set_url repo_path new_url) true ;;;
       log_action ("Updated origin remote for " ++ repo_path)
     else ret tt)
    (fun _ => Some (ret tt)).

Definition git_pull (repo_path : string) : list string := ["git"; "-C"; repo_path; "pull"].
Definition git_add (repo_path : string) : list string := ["git"; "-C"; repo_path; "add"; "."].
Definition git_commit (repo_path commit_msg : string) : list string :=
  ["git"; "-C"; repo_path; "commit"; "-m"; commit_msg].
Definition git_push (repo_path : string) : list string := ["git"; "-C"; repo_path; "push"].

(** [show_menu_local] *)
Definition show_menu_local (repo_path : string) : M string :=
  console_print ("📂 GIT ACTIONS — Local Repo: [bold]" ++ repo_path ++ "[/bold]") ;;;
  console_print "1) Pull (update from GitHub)" ;;;
  console_print "2) Push (upload local changes)" ;;;
  console_print "3) Sync (pull + push)" ;;;
  console_print "4) Exit" ;;;
  answer <- Prompt_ask (Py.NL ++ "👉 Enter your choice (1-4): ") None ;;
  ret (Py.strip answer).

(** The branches of the [try] in the loop of [local_git_menu]. *)
Definition pull_action (repo_path : string) : M loop_ctl :=
  console_print (Py.NL ++ "🔄 Pulling latest changes...") ;;;
  run_shell (git_pull repo_path) false ;;;
  console_print ("✅ Repository updated successfully!" ++ Py.NL) ;;;
  log_action ("Pulled latest changes in " ++ repo_path) ;;;
  ret Continue.

Definition push_action (repo_path : string) : M loop_ctl :=
  console_print (Py.NL ++ "⬆️ Pushing local changes...") ;;;
  commit_msg <- Prompt_ask "Commit message (default)" (Some DEFAULT_COMMIT_MSG) ;;
  run_shell (git_add repo_path) false ;;;
  returncode <- subprocess_run (git_commit repo_path commit_msg) false ;;
  if (returncode =? 0)%Z then
    run_shell (git_push repo_path) false ;;;
    console_print ("✅ Successfully pushed to GitHub!" ++ Py.NL) ;;;
    log_action ("Pushed changes in " ++ repo_path ++ " with message: " ++ commit_msg) ;;;
    ret Continue
  else
    console_print ("ℹ️ Nothing to commit (working tree clean)." ++ Py.NL) ;;;
    log_action ("Nothing to commit in " ++ repo_path) ;;;
    ret Continue.

Definition sync_action (repo_path : string) : M loop_ctl :=
  console_print (Py.NL ++ "🔁 Syncing repository (pull then push)...") ;;;
  run_shell (git_pull repo_path) false ;;;
  commit_msg <- Prompt_ask "Commit message (default)" (Some "Auto sync via Unified Manager") ;;
  run_shell (git_add repo_path) false ;;;
  returncode <- subprocess_run (git_commit repo_path commit_msg) false ;;
  if (returncode =? 0)%Z then
    run_shell (git_push repo_path) false ;;;
    console_print ("✅ Repository synced successfully!" ++ Py.NL) ;;;
    log_action ("Synced repository " ++ repo_path ++ " with message: " ++ commit_msg) ;;;
    ret Continue
  else
    console_print ("ℹ️ Nothing to sync (working tree clean)." ++ Py.NL) ;;;
    log_action ("Nothing to sync in " ++ repo_path) ;;;
    ret Continue.

Definition exit_action (repo_path : string) : M loop_ctl :=
  console_print (Py.NL ++ "👋 Exiting local git menu." ++ Py.NL) ;;;
  log_action ("Exited local git menu for " ++ repo_path) ;;;
  ret Break.

(** The body of the [try]: the chain of [if choice == ...]. *)
Definition menu_dispatch (repo_path choice : string) : M loop_ctl :=
  if choice =? "1" then pull_action repo_path
  else if choice =? "2" then push_action repo_path
  else if choice =? "3" then sync_action repo_path
  else if choice =? "4" then exit_action repo_path
  else
    console_print ("⚠️ Invalid choice. Try again." ++ Py.NL) ;;;
    ret Continue.

(** One menu action: the [try] with its [except CalledProcessError]. *)
Definition menu_action (repo_path choice : string) : M loop_ctl :=
  try_except
    (menu_dispatch repo_path choice)
    (fun e =>
       if is_CalledProcessError e then
         Some (console_print ("❌ Git command failed: " ++ str_exn e ++ Py.NL) ;;;
               log_action ("Git command failed for " ++ repo_path ++ ": " ++ str_exn e) ;;;
               ret Continue)
       else None).

(** The [while True] loop; [Ok None] when the fuel ends before the loop
    does. *)
Fixpoint menu_loop (fuel : nat) (repo_path : string) : M (option unit) :=
  match fuel with
  | O => ret None
  | S fuel' =>
      choice <- show_menu_local repo_path ;;
      ctl <- menu_action repo_path choice ;;
      match ctl with
      | Break => ret (Some tt)
      | Continue => menu_loop fuel' repo_path
      end
  end.

Definition git_config (repo_path key value : string) : list string :=
  ["git"; "-C"; repo_path; "config"; key; value].

(** [local_git_menu]; [TOKEN] is the global read from the environment at
    startup. *)
Definition local_git_menu (TOKEN : string) (fuel : nat) : M (option unit) :=
  base_repo_path <- Prompt_ask "Local repository path (default)" (Some REPO_PATH) ;;
  repo_path <- (fun w => (Ok (os_path_abspath P (os_path_expanduser P base_repo_path (ext w)) (ext w)), w)) ;;
  ok <- ensure_local_repo repo_path None (Some TOKEN) ;;
  if negb ok then ret (Some tt) else
  try_except
    (subprocess_run (git_config repo_path "user.name" "Auto Commit Bot") true ;;;
     subprocess_run (git_config repo_path "user.email" "autocommit@example.com") true ;;;
     ret tt)
    (fun _ => Some (console_print "⚠️ Warning: Could not set git identity (non-fatal).")) ;;;
  fix_local_remote_with_token repo_path TOKEN ;;;
  menu_loop fuel repo_path.

(* ----------------------------------------------------------------- *)
(** *** Upload through a temporary clone *)

Definition ignore_list : list string := [".env"; "__pycache__"; ".gitignore"].

(** The loop that removes the ignored items from the scratch directory. *)
Fixpoint remove_ignored (temp_dir : string) (items : list string) : M unit :=
  match items with
  | [] => ret tt
  | ignore_item :: rest =>
      let path := Py.path_join temp_dir ignore_item in
      e <- exists_ path ;;
      (if e then
         d <- isdir path ;;
         if d then call (Rmtree path) else call (Remove path)
       else ret tt) ;;;
      remove_ignored temp_dir rest
  end.

Definition upload_file_to_github (repo : Repository) (file_path branch_name
    commit_message token : string) : M bool :=
  temp_dir <- (fun w => match tempfile_mkdtemp P "gh_clone_" (ext w) with
                        | (inl text, x') => (Raise (PyException text), record (EMkdtemp None) x' w)
                        | (inr d, x') => (Ok d, record (EMkdtemp (Some d)) x' w)
                        end) ;;
  try_finally
    (try_except
       (console_print ("[yellow]Cloning repo " ++ name repo ++ " into " ++ temp_dir ++ "[/yellow]") ;;;
        let repo_url := ("https://" ++ token ++ "@github.com/" ++ owner_login repo ++ "/"
                           ++ name repo ++ ".git")%string in
        call (GitCloneFrom repo_url temp_dir branch_name) ;;;
        call (GitRepo temp_dir) ;;;
        d <- isdir file_path ;;
        (if d then
           call (Copytree file_path
                   (Py.path_join temp_dir (Py.basename (Py.rstrip_char "/" file_path))))
         else
           call (Copy2 file_path (Py.path_join temp_dir (Py.basename file_path)))) ;;;
        remove_ignored temp_dir ignore_list ;;;
        call (GitAddAll temp_dir) ;;;
        call (GitIndexCommit temp_dir commit_message) ;;;
        call (GitRemote temp_dir "origin") ;;;
        call (GitRemotePush temp_dir "origin") ;;;
        console_print ("[green]✅ Successfully pushed to " ++ name repo ++ ":" ++ branch_name
                         ++ "[/green]") ;;;
        log_action ("Pushed to " ++ full_name repo ++ "@" ++ branch_name ++ " with message: "
                      ++ commit_message) ;;;
        ret true)
       (fun e =>
          Some (console_print ("[red]Error uploading to GitHub: " ++ str_exn e ++ "[/red]") ;;;
                log_action ("Error uploading to GitHub: " ++ str_exn e) ;;;
                ret false)))
    (try_except (call (Rmtree temp_dir)) (fun _ => Some (ret tt))).

(* ----------------------------------------------------------------- *)
(** *** Branch deletion through the API *)

Definition delete_branch (repo : Repository) : M unit :=
  branch_name <- Prompt_ask "Branch name to delete" None ;;
  if branch_name =? default_branch repo then
    console_print "[yellow]Cannot delete the default branch via this tool. Change default first.[/yellow]"
  else
  try_except
    (call (ApiGetGitRef (full_name repo) ("heads/" ++ branch_name)) ;;;
     call (ApiRefDelete (full_name repo) ("heads/" ++ branch_name)) ;;;
     console_print ("🗑️ Deleted branch: " ++ branch_name) ;;;
     log_action ("Deleted branch " ++ branch_name ++ " in " ++ full_name repo))
    (fun e => Some (console_print ("[red]Delete branch failed: " ++ str_exn e ++ "[/red]"))).

End Model.

Arguments ret {X A} a w.


(** The [try] of [local_git_menu] that sets the commit identity. *)
Definition configure_identity {X} (P : Platform X) (repo_path : string) : M X unit :=
  try_except
    (bind (subprocess_run P (git_config repo_path "user.name" "Auto Commit Bot") true) (fun _ =>
     bind (subprocess_run P (git_config repo_path "user.email" "autocommit@example.com") true)
       (fun _ => ret tt)))
    (fun _ => Some (console_print "⚠️ Warning: Could not set git identity (non-fatal).")).

(* ================================================================= *)
(** ** The API manager

    The functions that work on one repository through the PyGithub client.
    As the program calls them, [console_obj] is its console and [prompt]
    and [confirm] are the [Prompt] and [Confirm] of rich. *)

(** What a request to GitHub raises when it fails: a [GithubException],
    with its [str()] and the [str()] of its [data], or another exception,
    with its [str()]. *)
Inductive api_error : Type :=
| GithubException (text data : string)
| OtherException (text : string).

Definition error_text (e : api_error) : string :=
  match e with
  | GithubException text _ => text
  | OtherException text => text
  end.

(** A repository object with the two more attributes the functions on
    settings read. *)
Record RepoInfo : Type := mkRepoInfo {
  attributes :> Repository;
  description : option string;
  private : bool
}.

(** An entry of a directory listing: [c.type], [c.path] and [c.size]. *)
Record Entry : Type := mkEntry {
  entry_type : string;
  entry_path : string;
  entry_size : option Z
}.

(** What [repo.get_contents(path, ref=...)] returns: the file at [path],
    with its [path], its [sha] and its
    [decoded_content.decode(errors="replace")] ([inl text] when that
    raises), or a list when [path] is a directory. *)
Inductive contents : Type :=
| ContentFile (path sha : string) (decoded : string + string)
| ContentList (entries : list Entry).

(** The keyword of a [repo.edit(...)]. *)
Inductive change : Type :=
| SetName (new_name : string)
| SetDescription (new_desc : string)
| SetPrivate (make_private : bool)
| SetDefaultBranch (new : string).

(** The requests the functions send: those of the authenticated user, and
    those on the repository of full name [repo]. *)
Inductive request : Type :=
| GetRepos                                          (* user.get_repos(), read to its end *)
| CreateRepo (name description : string) (private auto_init : bool)
                                                    (* user.create_repo(name=..., description=...,
                                                       private=..., auto_init=...) *)
| GetBranches (repo : string)                       (* repo.get_branches(), read to its end *)
| RepoEdit (repo : string) (c : change)             (* repo.edit(...) *)
| RepoDelete (repo : string)                        (* repo.delete() *)
| RequestJson (verb url new_owner : string)         (* repo._requester.requestJsonAndCheck(verb, url,
                                                       input={"new_owner": new_owner}) *)
| GetBranch (repo branch : string)                  (* repo.get_branch(branch) *)
| CreateGitRef (repo ref sha : string)              (* repo.create_git_ref(ref=ref, sha=sha) *)
| GetContents (repo path ref : string)              (* repo.get_contents(path, ref=ref) *)
| UpdateFile (repo path message content sha branch : string)
                                                    (* repo.update_file(path, message, content, sha,
                                                       branch=branch) *)
| CreateFile (repo path message content branch : string)
                                                    (* repo.create_file(path, message, content,
                                                       branch=branch) *)
| DeleteFile (repo path message sha branch : string).
                                                    (* repo.delete_file(path, message, sha,
                                                       branch=branch) *)

(** GitHub behind the client, on the state [X] of the outside world: what
    each request is answered with, or the error it raises.  [repo_edit]
    answers with the attributes of the repository after the change, which
    [edit] stores in the object; [repo_get_branch] with
    [base.commit.sha]; [repo_get_branches] with the names of the
    branches. *)
Record Github (X : Type) : Type := mkGithub {
  user_get_repos : X -> (api_error + list RepoInfo) * X;
  user_create_repo : string -> string -> bool -> bool -> X -> (api_error + RepoInfo) * X;
  repo_get_branches : string -> X -> (api_error + list string) * X;
  repo_edit : string -> change -> X -> (api_error + RepoInfo) * X;
  repo_delete : string -> X -> (api_error + unit) * X;
  requestJsonAndCheck : string -> string -> string -> X -> (api_error + unit) * X;
  repo_get_branch : string -> string -> X -> (api_error + string) * X;
  repo_create_git_ref : string -> string -> string -> X -> (api_error + unit) * X;
  repo_get_contents : string -> string -> string -> X -> (api_error + contents) * X;
  repo_update_file :
    string -> string -> string -> string -> string -> string -> X -> (api_error + unit) * X;
  repo_create_file :
    string -> string -> string -> string -> string -> X -> (api_error + unit) * X;
  repo_delete_file :
    string -> string -> string -> string -> string -> X -> (api_error + unit) * X
}.

(** The requests sent so far, in order, each with the error it raised. *)
Definition journal : Type := list (request * option api_error).

(** What [Confirm.ask] of rich makes of the line the user typed.  An empty
    line gives the default when there is one.  Any other line is stripped
    and lowered and must then be [y] or [n]; the only characters that lower
    to these are [y], [Y], [n] and [N].  [None]: the answer is refused. *)
Definition confirm_value (line : string) (default : option bool) : option bool :=
  match line, default with
  | EmptyString, Some d => Some d
  | _, _ =>
      let value := Py.strip line in
      if (value =? "y") || (value =? "Y") then Some true
      else if (value =? "n") || (value =? "N") then Some false
      else None
  end.

(** [Confirm.ask(prompt, default=...)]: lines are read until one is a valid
    answer; after a refused one rich prints its note and asks again. *)
Fixpoint Confirm_loop {Y : Type} (prompt : string) (default : option bool)
    (lines : list string) (x : Y) (out : list string) (t : list event)
  : Res bool * World Y :=
  match lines with
  | [] => (Raise (PyException "EOF when reading a line"),
           mkWorld x [] out (t +++ [EPrompt prompt]))
  | line :: rest =>
      match confirm_value line default with
      | Some b => (Ok b, mkWorld x rest out (t +++ [EPrompt prompt]))
      | None =>
          Confirm_loop prompt default rest x
            (out +++ ["[prompt.invalid]Please enter Y or N"]) (t +++ [EPrompt prompt])
      end
  end.

Definition Confirm_ask {Y : Type} (prompt : string) (default : option bool) : M Y bool :=
  fun w => Confirm_loop prompt default (stdin w) (ext w) (console_out w) (trace w).

(** [raise e] *)
Definition throw {Y A : Type} (e : exn) : M Y A := fun w => (Raise e, w).

(** [console.rule(title)], recorded by the title of the rule. *)
Definition console_rule {Y : Type} (title : string) : M Y unit := console_print title.

(** A rich [Table], recorded when it is printed by its title, the headers
    of its columns and its rows. *)
Definition Table (title : string) (columns : list string) (rows : list (list string))
  : string :=
  Py.join Py.NL (title :: map (Py.join " | ") (columns :: rows)).

(** [s.lower() == c] for a small ASCII letter [c] given as a string: the
    only characters that lower to [c] are [c] and its capital [C]. *)
Definition lower_is (s c C : string) : bool := (s =? c) || (s =? C).

Section Api.

Variable X : Type.
Variable P : Platform X.
Variable G : Github X.

(** The state of the API manager's runs: the outside world and the journal
    of the requests. *)
Definition Service : Type := (X * journal)%type.

(** The platform on [Service]: the journal is not its business. *)
Definition on_service : Platform Service :=
  {| os_path_isdir := fun p s => os_path_isdir P p (fst s);
     os_path_exists := fun p s => os_path_exists P p (fst s);
     os_path_expanduser := fun p s => os_path_expanduser P p (fst s);
     os_path_abspath := fun p s => os_path_abspath P p (fst s);
     datetime_now := fun s => datetime_now P (fst s);
     signal_repr := signal_repr P;
     perform := fun c s => let '(r, x') := perform P c (fst s) in (r, (x', snd s));
     spawn := fun cmd s => let '(r, x') := spawn P cmd (fst s) in (r, (x', snd s));
     tempfile_mkdtemp := fun prefix s =>
       let '(r, x') := tempfile_mkdtemp P prefix (fst s) in (r, (x', snd s)) |}.

Notation "x <- m ;; k" := (bind m (fun x => k))
  (at level 61, m at next level, right associativity).
Notation "m ;;; k" := (bind m (fun _ => k))
  (at level 61, right associativity).

(** A request [r], answered by [op]: it goes to the journal, and its
    outcome is handed back. *)
Definition attempt {A} (r : request) (op : X -> (api_error + A) * X)
  : M Service (api_error + A) :=
  fun w =>
    let '(res, x') := op (fst (ext w)) in
    (Ok res,
     mkWorld (x', snd (ext w) +++ [(r, match res with inl e => Some e | inr _ => None end)])
       (stdin w) (console_out w) (trace w)).

(** The same, as a call that returns or raises. *)
Definition send {A} (r : request) (op : X -> (api_error + A) * X) : M Service A :=
  res <- attempt r op ;;
  match res with
  | inl e => throw (PyException (error_text e))
  | inr a => ret a
  end.

Let log := log_action on_service.
Let str := str_exn on_service.

(* ----------------------------------------------------------------- *)
(** *** Repository settings *)

(** [list_repos(user, limit)] *)
Definition list_repos (limit : nat) : M Service (list RepoInfo) :=
  try_except
    (repos <- send GetRepos (user_get_repos G) ;;
     ret (firstn limit repos))
    (fun e => Some (console_print ("[red]Failed to load repositories: " ++ str e ++ "[/red]") ;;;
                    ret [])).

(** [create_repo].  In its [try] only the request can raise, and the two
    [except] clauses tell a [GithubException] from the rest, so the outcome
    of the request is kept as a value. *)
Definition create_repo : M Service (option RepoInfo) :=
  name <- Prompt_ask "Repository name" None ;;
  description <- Prompt_ask "Description" (Some ("Repository " ++ name)) ;;
  is_private <- Confirm_ask "Make repository PRIVATE?" (Some false) ;;
  auto_init <- Confirm_ask "Initialize repo with README on GitHub (auto-init)?" (Some false) ;;
  created <- attempt (CreateRepo name description is_private auto_init)
               (user_create_repo G name description is_private auto_init) ;;
  match created with
  | inr repo =>
      console_print ("✅ Created repository: [green]" ++ full_name repo ++ "[/green]") ;;;
      log ("Created repository " ++ full_name repo) ;;;
      ret (Some repo)
  | inl (GithubException _ data) =>
      console_print ("[red]GitHub API error: " ++ data ++ "[/red]") ;;;
      ret None
  | inl (OtherException text) =>
      console_print ("[red]Error creating repository: " ++ text ++ "[/red]") ;;;
      ret None
  end.

(** The functions that call [repo.edit] return nothing.  [edit] stores the
    attributes of the answer in the object [repo], so what they read from
    [repo] afterwards, and what their caller reads later, is the object
    after the change: here [repo'], which the model hands back. *)

Definition rename_repo (repo : RepoInfo) : M Service RepoInfo :=
  new_name <- Prompt_ask "New repository name" (Some (name repo)) ;;
  try_except
    (repo' <- send (RepoEdit (full_name repo) (SetName new_name))
                (repo_edit G (full_name repo) (SetName new_name)) ;;
     console_print ("✏️ Renamed to [yellow]" ++ new_name ++ "[/yellow]") ;;;
     log ("Renamed repo " ++ full_name repo' ++ " to " ++ new_name) ;;;
     ret repo')
    (fun e => Some (console_print ("[red]Rename failed: " ++ str e ++ "[/red]") ;;;
                    ret repo)).

Definition delete_repo_confirm (repo : RepoInfo) : M Service bool :=
  confirm_delete <-
    Confirm_ask ("Are you sure you want to DELETE repository '" ++ full_name repo
                   ++ "'? This is irreversible!") (Some false) ;;
  if negb confirm_delete then
    console_print "[cyan]Delete cancelled.[/cyan]" ;;;
    ret false
  else
  try_except
    (send (RepoDelete (full_name repo)) (repo_delete G (full_name repo)) ;;;
     console_print ("🗑️ Deleted repository: [red]" ++ full_name repo ++ "[/red]") ;;;
     log ("Deleted repo " ++ full_name repo) ;;;
     ret true)
    (fun e => Some (console_print ("[red]Delete failed: " ++ str e ++ "[/red]") ;;;
                    ret false)).



Definition visibility (is_private : bool) : string :=
  if is_private then "Private" else "Public".

Definition change_repo_visibility (repo : RepoInfo) : M Service RepoInfo :=
  let current := visibility (private repo) in
  console_print ("Current visibility: " ++ current) ;;;
  make_private <- Confirm_ask "Make repository PRIVATE? (Choose No to make it PUBLIC)" None ;;
  try_except
    (repo' <- send (RepoEdit (full_name repo) (SetPrivate make_private))
                (repo_edit G (full_name repo) (SetPrivate make_private)) ;;
     console_print ("✅ Visibility changed to: " ++ visibility make_private) ;;;
     log ("Changed visibility of " ++ full_name repo' ++ " to " ++ visibility make_private) ;;;
     ret repo')
    (fun e => Some (console_print ("[red]Visibility change failed: " ++ str e ++ "[/red]") ;;;
                    ret repo)).

Definition transfer_repository (repo : RepoInfo) : M Service unit :=
  console_print "[yellow]Repository transfer is a sensitive operation and requires admin rights on target.[/yellow]" ;;;
  new_owner <- Prompt_ask "Enter new owner username or organization name" None ;;
  confirm_transfer <-
    Confirm_ask ("Are you sure you want to transfer '" ++ full_name repo ++ "' to '"
                   ++ new_owner ++ "'?") (Some false) ;;
  if negb confirm_transfer then
    console_print "[cyan]Transfer cancelled.[/cyan]"
  else
  try_except
    (let owner := owner_login repo in
     let repo_name := name repo in
     let url := "/repos/" ++ owner ++ "/" ++ repo_name ++ "/transfer" in
     send (RequestJson "POST" url new_owner) (requestJsonAndCheck G "POST" url new_owner) ;;;
     console_print ("✅ Transfer requested to " ++ new_owner ++ ".") ;;;
     log ("Transfer requested for " ++ full_name repo ++ " to " ++ new_owner))
    (fun e => Some (console_print ("[red]Transfer failed: " ++ str e ++ "[/red]"))).

(* ----------------------------------------------------------------- *)
(** *** Branch operations *)

Definition list_branches (repo : RepoInfo) : M Service (list string) :=
  try_except
    (branches <- send (GetBranches (full_name repo)) (repo_get_branches G (full_name repo)) ;;
     console_print (Table ("Branches in " ++ full_name repo) ["Branch Name"]
                      (map (fun b => [b]) branches)) ;;;
     ret branches)
    (fun e => Some (console_print ("[red]Failed to list branches: " ++ str e ++ "[/red]") ;;;
                    ret [])).

Definition create_branch (repo : RepoInfo) (base_branch : string) : M Service (option string) :=
  new_branch <- Prompt_ask "New branch name" None ;;
  try_except
    (sha <- send (GetBranch (full_name repo) base_branch)
              (repo_get_branch G (full_name repo) base_branch) ;;
     send (CreateGitRef (full_name repo) ("refs/heads/" ++ new_branch) sha)
       (repo_create_git_ref G (full_name repo) ("refs/heads/" ++ new_branch) sha) ;;;
     console_print ("✅ Created branch " ++ new_branch ++ " from " ++ base_branch) ;;;
     log ("Created branch " ++ new_branch ++ " from " ++ base_branch ++ " in "
            ++ full_name repo) ;;;
     ret (Some new_branch))
    (fun e => Some (console_print ("[red]Error creating branch: " ++ str e ++ "[/red]") ;;;
                    ret None)).

Definition switch_default_branch (repo : RepoInfo) : M Service RepoInfo :=
  let current := default_branch repo in
  new <- Prompt_ask ("Enter branch name to set as default (current: " ++ current ++ ")") None ;;
  try_except
    (repo' <- send (RepoEdit (full_name repo) (SetDefaultBranch new))
                (repo_edit G (full_name repo) (SetDefaultBranch new)) ;;
     console_print ("🔀 Default branch set to " ++ new) ;;;
     log ("Set default branch to " ++ new ++ " for " ++ full_name repo') ;;;
     ret repo')
    (fun e => Some (console_print ("[red]Failed to switch default branch: " ++ str e
                                     ++ "[/red]") ;;;
                    ret repo)).

(* ----------------------------------------------------------------- *)
(** *** File and folder operations *)

(** [c.path] and [c.sha] of what [get_contents] returned: a list has
    neither. *)
Definition path_and_sha (c : contents) : M Service (string * string) :=
  match c with
  | ContentFile path sha _ => ret (path, sha)
  | ContentList _ => throw (PyException "'list' object has no attribute 'path'")
  end.

(** [create_or_edit_file_via_api].  In the inner [try] only the two
    requests and the attributes of [existing] can raise; the inner [except]
    is for [GithubException] alone, so the outcome of the inner [try] is
    kept as a value: [None] when it ran through, the error otherwise. *)
Definition create_or_edit_file_via_api (repo : RepoInfo) : M Service unit :=
  path <- Prompt_ask "Repository file path (e.g., README.md or src/app.py)" None ;;
  content <- Prompt_ask "Enter content (leave blank to create empty file)" (Some EmptyString) ;;
  branch <- Prompt_ask "Branch to use" (Some (default_branch repo)) ;;
  try_except
    (inner <-
       (got <- attempt (GetContents (full_name repo) path branch)
                 (repo_get_contents G (full_name repo) path branch) ;;
        match got with
        | inl e => ret (Some e)
        | inr existing =>
            ps <- path_and_sha existing ;;
            updated <- attempt (UpdateFile (full_name repo) (fst ps) ("Update " ++ path) content
                                  (snd ps) branch)
                         (repo_update_file G (full_name repo) (fst ps) ("Update " ++ path) content
                            (snd ps) branch) ;;
            match updated with
            | inl e => ret (Some e)
            | inr _ =>
                console_print ("📝 Updated " ++ path ++ " on " ++ branch) ;;;
                log ("Updated file " ++ path ++ " on " ++ full_name repo ++ "@" ++ branch) ;;;
                ret None
            end
        end) ;;
     match inner with
     | None => ret tt
     | Some (GithubException _ _) =>
         send (CreateFile (full_name repo) path ("Create " ++ path) content branch)
           (repo_create_file G (full_name repo) path ("Create " ++ path) content branch) ;;;
         console_print ("🆕 Created " ++ path ++ " on " ++ branch) ;;;
         log ("Created file " ++ path ++ " on " ++ full_name repo ++ "@" ++ branch)
     | Some (OtherException text) => throw (PyException text)
     end)
    (fun e => Some (console_print ("[red]API file operation failed: " ++ str e ++ "[/red]"))).

Definition create_folder_placeholder (repo : RepoInfo) : M Service unit :=
  folder_path <- Prompt_ask "Folder path (e.g., src/utils)" None ;;
  branch <- Prompt_ask "Branch name" (Some (default_branch repo)) ;;
  try_except
    (let placeholder := Py.rstrip_char "/" folder_path ++ "/.gitkeep" in
     send (CreateFile (full_name repo) placeholder ("Create folder " ++ folder_path)
             EmptyString branch)
       (repo_create_file G (full_name repo) placeholder ("Create folder " ++ folder_path)
          EmptyString branch) ;;;
     console_print ("📁 Created folder: " ++ folder_path ++ " in " ++ branch) ;;;
     log ("Created folder placeholder " ++ placeholder ++ " on " ++ full_name repo ++ "@"
            ++ branch))
    (fun e => Some (console_print ("[red]Failed to create folder: " ++ str e ++ "[/red]"))).

Definition delete_file_via_api (repo : RepoInfo) : M Service unit :=
  file_path <- Prompt_ask "File path to delete (e.g., src/app.py)" None ;;
  branch <- Prompt_ask "Branch name" (Some (default_branch repo)) ;;
  try_except
    (got <- send (GetContents (full_name repo) file_path branch)
              (repo_get_contents G (full_name repo) file_path branch) ;;
     ps <- path_and_sha got ;;
     send (DeleteFile (full_name repo) (fst ps) ("Delete " ++ file_path) (snd ps) branch)
       (repo_delete_file G (full_name repo) (fst ps) ("Delete " ++ file_path) (snd ps) branch) ;;;
     console_print ("🗑️ Deleted " ++ file_path ++ " on " ++ branch) ;;;
     log ("Deleted file " ++ file_path ++ " on " ++ full_name repo ++ "@" ++ branch))
    (fun e => Some (console_print ("[red]Error: " ++ str e ++ "[/red]"))).

(** [str(c.size or "-")] *)
Definition size_text (size : option Z) : string :=
  match size with
  | Some n => if (n =? 0)%Z then "-" else Py.str_of_Z n
  | None => "-"
  end.

Definition file_row (c : Entry) : list string :=
  [if entry_type c =? "dir" then "Folder" else "File"; entry_path c; size_text (entry_size c)].

(** [for c in contents]: a single file cannot be iterated. *)
Definition entries_of (c : contents) : M Service (list Entry) :=
  match c with
  | ContentList entries => ret entries
  | ContentFile _ _ _ => throw (PyException "'ContentFile' object is not iterable")
  end.

Definition list_files_via_api (repo : RepoInfo) : M Service unit :=
  path <- Prompt_ask "Folder path in repo (blank for root)" (Some EmptyString) ;;
  branch <- Prompt_ask "Branch name" (Some (default_branch repo)) ;;
  try_except
    (got <- send (GetContents (full_name repo) path branch)
              (repo_get_contents G (full_name repo) path branch) ;;
     entries <- entries_of got ;;
     console_print
       (Table ("Files in " ++ full_name repo ++ "/" ++ (if Py.truthy path then path else ".")
                 ++ " [" ++ branch ++ "]")
          ["Type"; "Path"; "Size"] (map file_row entries)))
    (fun e => Some (console_print ("[red]Failed to list files: " ++ str e ++ "[/red]"))).

(** [contents.decoded_content.decode(errors="replace")]: a list has no
    such attribute. *)
Definition decoded_text (c : contents) : M Service string :=
  match c with
  | ContentFile _ _ (inr text) => ret text
  | ContentFile _ _ (inl text) => throw (PyException text)
  | ContentList _ => throw (PyException "'list' object has no attribute 'decoded_content'")
  end.

Definition view_file_via_api (repo : RepoInfo) : M Service unit :=
  file_path <- Prompt_ask "File path to view" None ;;
  branch <- Prompt_ask "Branch name" (Some (default_branch repo)) ;;
  try_except
    (got <- send (GetContents (full_name repo) file_path branch)
              (repo_get_contents G (full_name repo) file_path branch) ;;
     console_rule (file_path ++ " [" ++ branch ++ "]") ;;;
     text <- decoded_text got ;;
     console_print text ;;;
     console_rule EmptyString)
    (fun e => Some (console_print ("[red]Failed to view file: " ++ str e ++ "[/red]"))).

(* ----------------------------------------------------------------- *)
(** *** Repository selection and the menus *)

(** [int(s)] for a string, [None] when it raises [ValueError].  Python
    reads more than the ASCII digits, so the reading is left open. *)
Variable int_of_str : string -> option Z.

(** The global [TOKEN], read from the environment at startup. *)
Variable TOKEN : string.

(** The table of the repositories, numbered from 1. *)
Definition repos_table (repos : list RepoInfo) : string :=
  Table ("Your Repositories (Top " ++ Py.str_of_Z (Z.of_nat (length repos)) ++ ")")
    ["No"; "Name"; "Visibility"]
    (map (fun ir : nat * RepoInfo =>
            [Py.str_of_Z (Z.of_nat (fst ir)); name (snd ir);
             if private (snd ir) then "Private 🔒" else "Public 🌍"])
       (combine (seq 1 (length repos)) repos)).

Definition select_repo : M Service (option RepoInfo) :=
  repos <- list_repos 200 ;;
  match repos with
  | [] =>
      console_print "[yellow]No repositories found.[/yellow]" ;;;
      create <- Confirm_ask "Create one now?" None ;;
      if create then create_repo else ret None
  | _ :: _ =>
      console_print (repos_table repos) ;;;
      console_print "[blue]0[/blue] → Create new repository" ;;;
      choice <- Prompt_ask "Enter repo number" (Some "1") ;;
      match int_of_str choice with
      | None =>
          console_print "[red]Invalid input[/red]" ;;;
          ret None
      | Some idx =>
          if (idx =? 0)%Z then create_repo
          else if (1 <=? idx)%Z && (idx <=? Z.of_nat (length repos))%Z
          then ret (nth_error repos (Z.to_nat (idx - 1)))
          else
            console_print "[red]Choice out of range[/red]" ;;;
            ret None
      end
  end.

Definition REPO_MENU : string :=
  Py.NL ++ Py.join Py.NL
    ["a) Create folder";
     "b) Create/Edit file";
     "c) Delete file";
     "d) List files";
     "e) View file";
     "f) Branch operations";
     "g) Repo settings (rename/visibility/delete/transfer)";
     "h) Upload local folder via git push (temp clone)";
     "i) Return to main menu"] ++ Py.NL.

(** One round of the loop of [repo_manage_menu], on the object [repo]:
    whether the loop goes on, and the object after the round. *)
Definition repo_manage_round (repo : RepoInfo) : M Service (loop_ctl * RepoInfo) :=
  console_rule ("[bold]Repository:[/bold] " ++ full_name repo ++ "  (default: "
                  ++ default_branch repo ++ ")") ;;;
  console_print REPO_MENU ;;;
  answer <- Prompt_ask "Choose option" None ;;
  let sub := Py.strip answer in
  if lower_is sub "a" "A" then
    create_folder_placeholder repo ;;; ret (Continue, repo)
  else if lower_is sub "b" "B" then
    create_or_edit_file_via_api repo ;;; ret (Continue, repo)
  else if lower_is sub "c" "C" then
    delete_file_via_api repo ;;; ret (Continue, repo)
  else if lower_is sub "d" "D" then
    list_files_via_api repo ;;; ret (Continue, repo)
  else if lower_is sub "e" "E" then
    view_file_via_api repo ;;; ret (Continue, repo)
  else if lower_is sub "f" "F" then
    branches <- list_branches repo ;;
    console_print "Options: [1] Create  [2] Delete  [3] Switch Default" ;;;
    action <- Prompt_ask "Choose" (Some "1") ;;
    if action =? "1" then
      create_branch repo (default_branch repo) ;;; ret (Continue, repo)
    else if action =? "2" then
      delete_branch on_service repo ;;; ret (Continue, repo)
    else if action =? "3" then
      repo' <- switch_default_branch repo ;; ret (Continue, repo')
    else ret (Continue, repo)
  else if lower_is sub "g" "G" then
    console_print "Options: [1] Rename  [2] Visibility  [3] Delete Repo  [4] Transfer" ;;;
    choice <- Prompt_ask "Choose" (Some "1") ;;
    if choice =? "1" then
      repo' <- rename_repo repo ;; ret (Continue, repo')
    else if choice =? "2" then
      repo' <- change_repo_visibility repo ;; ret (Continue, repo')
    else if choice =? "3" then
      deleted <- delete_repo_confirm repo ;;
      if deleted then ret (Break, repo) else ret (Continue, repo)
    else if choice =? "4" then
      transfer_repository repo ;;; ret (Continue, repo)
    else ret (Continue, repo)
  else if lower_is sub "h" "H" then
    branch_name <- Prompt_ask "Branch to push to" (Some (default_branch repo)) ;;
    file_path <- Prompt_ask "Local path to upload (absolute or relative)" (Some ".") ;;
    commit_message <- Prompt_ask "Commit message" (Some "Upload via GitHub Manager") ;;
    upload_file_to_github on_service repo file_path branch_name commit_message TOKEN ;;;
    ret (Continue, repo)
  else if lower_is sub "i" "I" then
    ret (Break, repo)
  else
    console_print "[red]Invalid option[/red]" ;;; ret (Continue, repo).

(** The [while True] of [repo_manage_menu], for at most [fuel] rounds;
    [None]: the rounds are used up. *)
Fixpoint repo_manage_loop (fuel : nat) (repo : RepoInfo) : M Service (option unit) :=
  match fuel with
  | O => ret None
  | S fuel' =>
      round <- repo_manage_round repo ;;
      match fst round with
      | Break => ret (Some tt)
      | Continue => repo_manage_loop fuel' (snd round)
      end
  end.

Definition repo_manage_menu (fuel : nat) : M Service (option unit) :=
  selected <- select_repo ;;
  match selected with
  | None => ret (Some tt)
  | Some repo => repo_manage_loop fuel repo
  end.

Definition MAIN_MENU : string :=
  Py.NL ++ Py.join Py.NL
    ["1) Create new repository";
     "2) Rename repository";
     "3) Delete repository";
     "4) Manage repository (files/branches)";
     "5) Upload local folder/file to a repo (git push via temp clone)";
     "6) Local Git Pull/Push Manager (clone/pull/push/sync)";
     "7) List repositories";
     "8) Exit"] ++ Py.NL.

(** How a round of the loop of [main_menu] ends: the loop goes on, or
    [sys.exit] was called with a status, or a loop inside it used up its
    rounds. *)
Inductive main_ctl : Type := GoOn | Exit (status : Z) | Stuck.

Definition after (inner : option unit) : main_ctl :=
  match inner with
  | Some _ => GoOn
  | None => Stuck
  end.

(** One round of the loop of [main_menu]; the loops inside it get [fuel]
    rounds. *)
Definition main_round (fuel : nat) : M Service main_ctl :=
  console_rule "[bold blue]Main Menu[/bold blue]" ;;;
  console_print MAIN_MENU ;;;
  answer <- Prompt_ask "Enter your choice" None ;;
  let choice := Py.strip answer in
  if choice =? "1" then
    create_repo ;;; ret GoOn
  else if choice =? "2" then
    repo <- select_repo ;;
    match repo with
    | Some repo => rename_repo repo ;;; ret GoOn
    | None => ret GoOn
    end
  else if choice =? "3" then
    repo <- select_repo ;;
    match repo with
    | Some repo => delete_repo_confirm repo ;;; ret GoOn
    | None => ret GoOn
    end
  else if choice =? "4" then
    inner <- repo_manage_menu fuel ;; ret (after inner)
  else if choice =? "5" then
    repo <- select_repo ;;
    match repo with
    | Some repo =>
        branch_name <- Prompt_ask "Branch" (Some (default_branch repo)) ;;
        file_path <- Prompt_ask "Local path to upload (absolute or relative)" (Some ".") ;;
        commit_message <- Prompt_ask "Commit message" (Some DEFAULT_COMMIT_MSG) ;;
        upload_file_to_github on_service repo file_path branch_name commit_message TOKEN ;;;
        ret GoOn
    | None => ret GoOn
    end
  else if choice =? "6" then
    inner <- local_git_menu on_service TOKEN fuel ;; ret (after inner)
  else if choice =? "7" then
    repos <- list_repos 200 ;;
    console_print (repos_table repos) ;;;
    ret GoOn
  else if choice =? "8" then
    console_print "[bold magenta]Exiting...[/bold magenta]" ;;;
    log "Exited Unified GitHub Manager" ;;;
    ret (Exit 0)
  else
    console_print "[red]Invalid input[/red]" ;;; ret GoOn.

(** The [while True] of [main_menu], for at most [fuel] rounds.
    [Some status]: the program ended through [sys.exit(status)], which
    nothing on the way catches; [None]: the rounds are used up. *)
Fixpoint main_loop (fuel : nat) : M Service (option Z) :=
  match fuel with
  | O => ret None
  | S fuel' =>
      ctl <- main_round fuel' ;;
      match ctl with
      | GoOn => main_loop fuel'
      | Exit status => ret (Some status)
      | Stuck => ret None
      end
  end.

Definition main_menu (fuel : nat) : M Service (option Z) :=
  console_print "[bold magenta]GitHub Manager — Unified Edition[/bold magenta]" ;;;
  main_loop fuel.

End Api.

(* ================================================================= *)
(** ** A small outside world to run the program in

    Directories are a list of paths, the coming subprocesses exit with the
    statuses of [exits] (and with 0 once the list is used up), [git clone]
    creates the checkout when it succeeds, and a push through GitPython
    raises when [push_ok] is off. *)

Module Sim.

Record state : Type := mkState {
  dirs : list string;
  exits : list Z;
  push_ok : bool
}.

Definition has_dir (p : string) (x : state) : bool :=
  existsb (String.eqb p) (dirs x).

Definition add_dirs (l : list string) (x : state) : state :=
  mkState (l ++ dirs x) (exits x) (push_ok x).

Definition sim_perform (c : syscall) (x : state) : option string * state :=
  match c with
  | Makedirs p => (None, add_dirs [p] x)
  | GitCloneFrom _ d _ => (None, add_dirs [d; Py.path_join d ".git"] x)
  | Rmtree p => (None, mkState (filter (fun d => negb (Py.startswith d p)) (dirs x))
                         (exits x) (push_ok x))
  | GitRemotePush _ _ =>
      if push_ok x then (None, x) else (Some "push rejected", x)
  | _ => (None, x)
  end.

Definition sim_spawn (cmd : list string) (x : state) : (string + Z * string) * state :=
  let rc := hd 0%Z (exits x) in
  let x' := mkState (dirs x) (tl (exits x)) (push_ok x) in
  let arg := fun n => nth n cmd EmptyString in
  if arg 1 =? "clone" then
    (inr (rc, EmptyString),
     if (rc =? 0)%Z then add_dirs [arg 3; Py.path_join (arg 3) ".git"] x' else x')
  else if (arg 3 =? "remote") && (arg 4 =? "get-url") then
    (inr (rc, "https://github.com/u/r.git" ++ Py.NL), x')
  else (inr (rc, EmptyString), x').

Definition platform : Platform state :=
  {| os_path_isdir := has_dir;
     os_path_exists := has_dir;
     os_path_expanduser := fun p _ => p;
     os_path_abspath := fun p _ => p;
     datetime_now := fun _ => "2024-01-01 00:00:00";
     signal_repr := fun n => if (n =? 9)%Z then Some "<Signals.SIGKILL: 9>" else None;
     perform := sim_perform;
     spawn := sim_spawn;
     tempfile_mkdtemp := fun prefix x => (inr ("/tmp/" ++ prefix ++ "0"), add_dirs ["/tmp/" ++ prefix ++ "0"] x) |}.

Definition world (ds : list string) (es : list Z) (ok : bool) (lines : list string)
  : World state :=
  mkWorld (mkState ds es ok) lines [] [].

Definition repo : Repository := mkRepository "r" "u/r" "u" "main".

(** No checkout yet; the user asks for a clone, which exits with 128. *)
Definition clone_fails : World state :=
  world [] [128%Z] true ["1"; "https://github.com/u/r.git"].

(** A checkout at [/r]. *)
Definition checkout (es : list Z) (lines : list string) : World state :=
  world ["/r"; "/r/.git"] es true lines.

End Sim.

(** The same world on a machine that is out of order: with [read_only] no
    directory can be made, with [no_git] no process can be started. *)
Module Faulty.

Definition platform (read_only no_git : bool) : Platform Sim.state :=
  {| os_path_isdir := Sim.has_dir;
     os_path_exists := Sim.has_dir;
     os_path_expanduser := fun p _ => p;
     os_path_abspath := fun p _ => p;
     datetime_now := fun _ => "2024-01-01 00:00:00";
     signal_repr := fun _ => None;
     perform := fun c x =>
       match c with
       | Makedirs _ =>
           if read_only then (Some "[Errno 30] Read-only file system", x)
           else Sim.sim_perform c x
       | _ => Sim.sim_perform c x
       end;
     spawn := fun cmd x =>
       if no_git then (inl "[Errno 2] No such file or directory: 'git'", x)
       else Sim.sim_spawn cmd x;
     tempfile_mkdtemp := fun prefix x => (inl "[Errno 30] Read-only file system", x) |}.

End Faulty.

(** GitHub for the small world: the user [u] has one repository, [u/r], on
    the branch [main], with a file [README.md] and a directory [src].
    Anything else that is looked up is not found, and every change is
    turned down when [push_ok] is off. *)
Module Hub.

Definition repo : RepoInfo := mkRepoInfo Sim.repo None false.

Definition not_found : api_error := GithubException "404 Not Found" "{'message': 'Not Found'}".
Definition denied : api_error := GithubException "403 Forbidden" "{'message': 'Forbidden'}".

Definition change_it (x : Sim.state) : (api_error + unit) * Sim.state :=
  if Sim.push_ok x then (inr tt, x) else (inl denied, x).

Definition edited (c : change) : RepoInfo :=
  match c with
  | SetName new_name =>
      mkRepoInfo (mkRepository new_name ("u/" ++ new_name) "u" "main") None false
  | SetDescription new_desc => mkRepoInfo Sim.repo (Some new_desc) false
  | SetPrivate make_private => mkRepoInfo Sim.repo None make_private
  | SetDefaultBranch new => mkRepoInfo (mkRepository "r" "u/r" "u" new) None false
  end.

Definition github : Github Sim.state :=
  {| user_get_repos := fun x => (inr [repo], x);
     user_create_repo := fun name description private _ x =>
       if Sim.push_ok x
       then (inr (mkRepoInfo (mkRepository name ("u/" ++ name) "u" "main")
                    (Some description) private), x)
       else (inl denied, x);
     repo_get_branches := fun _ x => (inr ["main"], x);
     repo_edit := fun _ c x =>
       if Sim.push_ok x then (inr (edited c), x) else (inl denied, x);
     repo_delete := fun _ => change_it;
     requestJsonAndCheck := fun _ _ _ => change_it;
     repo_get_branch := fun _ branch x =>
       if branch =? "main" then (inr "0a1b2c", x) else (inl not_found, x);
     repo_create_git_ref := fun _ _ _ => change_it;
     repo_get_contents := fun _ path _ x =>
       if path =? "README.md"
       then (inr (ContentFile "README.md" "3f4e5d" (inr "hello")), x)
       else if path =? "src"
       then (inr (ContentList [mkEntry "file" "src/app.py" (Some 12%Z)]), x)
       else (inl not_found, x);
     repo_update_file := fun _ _ _ _ _ _ => change_it;
     repo_create_file := fun _ _ _ _ _ => change_it;
     repo_delete_file := fun _ _ _ _ _ => change_it |}.

(** [int] for the ASCII digits with an optional sign. *)
Definition int_of_str (s : string) : option Z :=
  option_map Z.of_int (NilZero.int_of_string s).

(** The user is going to type [lines]; nothing was sent yet. *)
Definition world (ok : bool) (lines : list string) : World (Service Sim.state) :=
  mkWorld (Sim.mkState [] [] ok, []) lines [] [].

End Hub.

(* ================================================================= *)
(** ** Reading the trace *)

(** The commands of the subprocesses that were launched, in order. *)
Fixpoint launched (t : list event) : list (list string) :=
  match t with
  | [] => []
  | ESpawn cmd _ :: t' => cmd :: launched t'
  | _ :: t' => launched t'
  end.

(** The events one call of [log_action text] leaves: the directory of the
    log could not be made, or it was made and the line for [text] was
    handed to the log file (the write itself may fail, silently). *)
Inductive log_attempt (text : string) : list event -> Prop :=
| log_no_dir :
    log_attempt text [ECall (Makedirs (Py.dirname LOG_FILE)) false]
| log_line (stamp : string) (ok : bool) :
    log_attempt text
      [ECall (Makedirs (Py.dirname LOG_FILE)) true;
       ECall (AppendFile LOG_FILE ("[" ++ stamp ++ "] " ++ text ++ Py.NL)) ok].


(** A URL with user-info credentials, after RFC 3986: the authority, which
    follows the [://] after the scheme and runs up to the next [/], [?] or
    [#], has a user-info part ending in [@]. *)
Definition has_userinfo (url : string) : Prop :=
  exists scheme userinfo rest,
    url = scheme ++ "://" ++ userinfo ++ "@" ++ rest
    /\ Py.contains "/" scheme = false
    /\ Py.contains "/" userinfo = false
    /\ Py.contains "?" userinfo = false
    /\ Py.contains "#" userinfo = false.

(** A plain HTTPS URL: it starts with [https://] and has no [@]. *)
Definition plain_https (url : string) : bool :=
  Py.startswith url "https://" && negb (Py.contains "@" url).










(** One step of running the program on an unknown outside world: split on
    what the next read or call gives. *)
Ltac exec_step :=
  match goal with
  | |- context [match stdin ?w with _ => _ end] => destruct (stdin w) eqn:?
  | |- context [match spawn ?Q ?c ?x with _ => _ end] =>
      destruct (spawn Q c x) as [[?|[? ?]] ?] eqn:?
  | |- context [match perform ?Q ?c ?x with _ => _ end] =>
      destruct (perform Q c x) as [[?|] ?] eqn:?
  | |- context [(?rc =? 0)%Z] => destruct (Z.eqb_spec rc 0); subst
  end.

(** Worlds after a step, with their fields computed. *)
Ltac tidy := cbn [ext stdin console_out trace record].

(** Membership in an explicit list, as a goal and as a hypothesis. *)
Ltac in_tac := simpl; repeat first [left; reflexivity | right].

Ltac in_cases H :=
  simpl in H;
  repeat (destruct H as [H|H]; [try discriminate H|]);
  try contradiction.

(** The last line printed, and the log attempt that ends a trace. *)
Ltac last_printed :=
  match goal with
  | |- exists pre, ?base +++ ?l = ?base +++ pre +++ [_] => exists (removelast l); reflexivity
  end.

Ltac ends_with_log :=
  match goal with
  | |- exists t0 evs, ?t = t0 +++ evs /\ log_attempt _ evs =>
      first [ exists (firstn (length t - 1) t), (skipn (length t - 1) t);
              split; [reflexivity | simpl; constructor]
            | exists (firstn (length t - 2) t), (skipn (length t - 2) t);
              split; [reflexivity | simpl; constructor] ]
  end.

(** The requests sent so far. *)
Definition requests {X} (w : World (Service X)) : journal := snd (ext w).


(** A deletion of a repository. *)
Definition is_delete (r : request) : bool :=
  match r with
  | RepoDelete _ => true
  | _ => false
  end.

(** Any entry of the journal but a deletion of a repository that worked. *)
Definition keeps_repos (entry : request * option api_error) : Prop :=
  match entry with
  | (RepoDelete _, None) => False
  | _ => True
  end.

(** [m] puts no line back into the input, and every request it sends
    satisfies [Q]. *)
Definition quiet {X A} (Q : request * option api_error -> Prop) (m : M (Service X) A)
  : Prop :=
  forall w,
    length (stdin (snd (m w))) <= length (stdin w)
    /\ exists js, requests (snd (m w)) = requests w +++ js /\ Forall Q js.

(** As [quiet keeps_repos], but for one deletion of a repository that
    worked, which is then the last request and with which [m] returns
    [last]. *)
Definition ends_on_delete {X A} (last : A -> Prop) (m : M (Service X) A) : Prop :=
  forall w,
    length (stdin (snd (m w))) <= length (stdin w)
    /\ exists js,
         requests (snd (m w)) = requests w +++ js
         /\ (Forall keeps_repos js
             \/ exists js0 full_name a,
                  js = js0 +++ [(RepoDelete full_name, None)]
                  /\ Forall keeps_repos js0
                  /\ fst (m w) = Ok a /\ last a).

(** With fewer than [n] lines of input left, the round [m] of the main
    menu puts no line back and does not end with a loop inside it out of
    rounds. *)
Definition goes_through {X} (n : nat) (m : M (Service X) main_ctl) : Prop :=
  forall w,
    length (stdin w) < n ->
    length (stdin (snd (m w))) <= length (stdin w) /\ fst (m w) <> Ok Stuck.

(** One step of a run of the API manager: split on what GitHub answers. *)
Ltac api_step :=
  match goal with
  | |- context [match repo_edit ?g ?a ?c ?x with _ => _ end] =>
      destruct (repo_edit g a c x) as [[?|?] ?] eqn:?
  | |- context [match repo_delete ?g ?a ?x with _ => _ end] =>
      destruct (repo_delete g a x) as [[?|?] ?] eqn:?
  | |- context [match requestJsonAndCheck ?g ?a ?b ?c ?x with _ => _ end] =>
      destruct (requestJsonAndCheck g a b c x) as [[?|?] ?] eqn:?
  | |- context [match repo_get_branch ?g ?a ?b ?x with _ => _ end] =>
      destruct (repo_get_branch g a b x) as [[?|?] ?] eqn:?
  | |- context [match repo_create_git_ref ?g ?a ?b ?c ?x with _ => _ end] =>
      destruct (repo_create_git_ref g a b c x) as [[?|?] ?] eqn:?
  | |- context [match repo_get_contents ?g ?a ?b ?c ?x with _ => _ end] =>
      destruct (repo_get_contents g a b c x) as [[?|[? ? [?|?]|?]] ?] eqn:?
  | |- context [match user_get_repos ?g ?x with _ => _ end] =>
      destruct (user_get_repos g x) as [[?|?] ?] eqn:?
  | |- context [match user_create_repo ?g ?a ?b ?c ?d ?x with _ => _ end] =>
      destruct (user_create_repo g a b c d x) as [[?|?] ?] eqn:?
  | |- context [match repo_get_branches ?g ?a ?x with _ => _ end] =>
      destruct (repo_get_branches g a x) as [[?|?] ?] eqn:?
  | |- context [match repo_update_file ?g ?a ?b ?c ?d ?e ?f ?x with _ => _ end] =>
      destruct (repo_update_file g a b c d e f x) as [[?|?] ?] eqn:?
  | |- context [match repo_create_file ?g ?a ?b ?c ?d ?e ?x with _ => _ end] =>
      destruct (repo_create_file g a b c d e x) as [[?|?] ?] eqn:?
  | |- context [match repo_delete_file ?g ?a ?b ?c ?d ?e ?x with _ => _ end] =>
      destruct (repo_delete_file g a b c d e x) as [[?|?] ?] eqn:?
  | |- context [match ?e with GithubException _ _ => _ | OtherException _ => _ end] =>
      destruct e
  | |- context [match ?l with [] => _ | _ :: _ => _ end] => is_var l; destruct l
  end.

Ltac api_unfold :=
  unfold try_except, send, attempt, path_and_sha, entries_of, decoded_text, throw, log_action,
    try_except, bind, console_rule, console_print, Prompt_ask, call, ret, record, requests,
    str_exn;
  cbn [perform on_service datetime_now ext stdin console_out trace fst snd].

Ltac api_run :=
  repeat (first [exec_step | api_step]; cbn [ext stdin console_out trace fst snd]).



(* ================================================================= *)
(** ** Checks of the Python string model *)

Example replace_ex :
  Py.replace "https://a/https://b" "https://" "https://T@" = "https://T@a/https://T@b".
Proof. reflexivity. Qed.

Example strip_ex : Py.strip (" 1 " ++ Py.NL)%string = "1".
Proof. reflexivity. Qed.

Example repr_ex :
  Py.str_of_list ["git"; "a'b"; "x\y"] =
    ("['git', " ++ String Py.DQ ("a'b" ++ String Py.DQ ", 'x\\y']"))%string.
Proof. reflexivity. Qed.

Example dirname_ex :
  Py.dirname "/home/gost/all-project/git-all/git_actions.log" = "/home/gost/all-project/git-all"
  /\ Py.dirname "/a" = "/" /\ Py.dirname "a" = EmptyString /\ Py.dirname "/a//b" = "/a"
  /\ Py.basename "/a/b" = "b" /\ Py.basename "a/" = EmptyString
  /\ Py.path_join "/tmp/x" ".git" = "/tmp/x/.git" /\ Py.path_join "/tmp/x/" ".git" = "/tmp/x/.git".
Proof. repeat split; reflexivity. Qed.

Example str_of_Z_ex : Py.str_of_Z 128 = "128" /\ Py.str_of_Z (-9) = "-9" /\ Py.str_of_Z 0 = "0".
Proof. repeat split; reflexivity. Qed.

Example dirname_edge_ex :
  Py.dirname "//a" = "//" /\ Py.dirname "a/b/" = "a/b" /\ Py.dirname EmptyString = EmptyString
  /\ Py.dirname "/" = "/" /\ Py.basename "/" = EmptyString
  /\ Py.path_join EmptyString ".git" = ".git" /\ Py.path_join "/a" "/b" = "/b"
  /\ Py.rstrip_char "/" "dir///" = "dir".
Proof. repeat split; reflexivity. Qed.

Example replace_empty_ex : Py.replace "abc" EmptyString "-" = "-a-b-c-".
Proof. reflexivity. Qed.

Example strip_edge_ex :
  Py.strip (" x " ++ String (ascii_of_nat 31) EmptyString)%string = "x"
  /\ Py.strip (Py.str_of_bytes [194; 160; 120; 226; 128; 137]) = "x"
  /\ Py.strip (Py.str_of_bytes [226; 128; 139; 120]) = Py.str_of_bytes [226; 128; 139; 120].
Proof. repeat split; reflexivity. Qed.

Example repr_escape_ex :
  Py.repr ("a" ++ String (ascii_of_nat 9) ("b" ++ String (ascii_of_nat 1)
             (String (ascii_of_nat 127) EmptyString)))%string = "'a\tb\x01\x7f'"
  /\ Py.repr ("a'b" ++ String Py.DQ "c")%string = ("'a\'b" ++ String Py.DQ "c'")%string.
Proof. repeat split; reflexivity. Qed.

Example str_exn_ex :
  str_exn Sim.platform (CalledProcessError ["git"; "-C"; "/r"; "push"] (-9)) =
    "Command '['git', '-C', '/r', 'push']' died with <Signals.SIGKILL: 9>."
  /\ str_exn Sim.platform (CalledProcessError ["git"] (-200)) =
       "Command '['git']' died with unknown signal 200."
  /\ str_exn Sim.platform
       (CalledProcessError ["git"; "clone"; "https://ghp_SECRET@github.com/u/r.git"; "/tmp/x"] 128) =
       "Command '['git', 'clone', 'https://ghp_SECRET@github.com/u/r.git', '/tmp/x']' returned non-zero exit status 128.".
Proof. repeat split; reflexivity. Qed.

(* ================================================================= *)
(** ** Lemmas on strings *)

Module PyFacts.

Lemma append_assoc (a b c : string) : (a ++ b) ++ c = a ++ b ++ c.
Proof. induction a as [|x a IH]; simpl; [reflexivity | rewrite IH; reflexivity]. Qed.

Lemma prefix_app (s b : string) : String.prefix s (s ++ b) = true.
Proof.
  induction s as [|c s IH]; simpl; [destruct b; reflexivity|].
  destruct (ascii_dec c c) as [_|N]; [exact IH | contradiction].
Qed.

Lemma prefix_split (s t : string) :
  String.prefix s t = true -> exists b, t = s ++ b.
Proof.
  revert t. induction s as [|c s IH]; intros t H.
  - exists t. reflexivity.
  - destruct t as [|d t]; simpl in H; [discriminate|].
    destruct (ascii_dec c d) as [->|]; [|discriminate].
    destruct (IH t H) as [b ->]. exists b. reflexivity.
Qed.

Lemma contains_prefix (s t : string) :
  String.prefix s t = true -> Py.contains s t = true.
Proof. intros H. destruct t; cbn [Py.contains]; rewrite H; reflexivity. Qed.

Lemma contains_here (s b : string) : Py.contains s (s ++ b) = true.
Proof. apply contains_prefix, prefix_app. Qed.

Lemma contains_app_r (s a b : string) :
  Py.contains s b = true -> Py.contains s (a ++ b) = true.
Proof.
  intros H. induction a as [|c a IH]; simpl; [exact H|].
  rewrite IH. apply orb_true_r.
Qed.

Lemma contains_middle (s a b : string) : Py.contains s (a ++ s ++ b) = true.
Proof. apply contains_app_r, contains_here. Qed.

Lemma contains_app_l (s a b : string) :
  Py.contains s a = true -> Py.contains s (a ++ b) = true.
Proof.
  induction a as [|c a IH]; intros H.
  - cbn [Py.contains] in H. rewrite orb_false_r in H. destruct s; [|discriminate].
    apply contains_prefix. destruct b; reflexivity.
  - cbn [Py.contains] in H. apply orb_true_iff in H. destruct H as [H|H].
    + destruct (prefix_split _ _ H) as [r E].
      rewrite E, append_assoc. apply contains_here.
    + change (String c a ++ b) with (String c (a ++ b)). cbn [Py.contains].
      rewrite (IH H). apply orb_true_r.
Qed.

Lemma escape_app (q : ascii) (a b : string) :
  Py.escape q (a ++ b) = Py.escape q a ++ Py.escape q b.
Proof.
  induction a as [|c a IH]; simpl; [reflexivity|].
  rewrite IH, append_assoc. reflexivity.
Qed.

Lemma quoted_shows (q : ascii) (t a b : string) :
  Py.escape q t = t ->
  Py.contains t (String q (Py.escape q (a ++ t ++ b) ++ String q EmptyString)) = true.
Proof.
  intros Hq. rewrite !escape_app, Hq.
  change (String q ?x) with (String q EmptyString ++ x) at 1.
  apply contains_app_r. rewrite !append_assoc. apply contains_middle.
Qed.

(** A text that [repr] does not escape shows in the [repr] of every string
    it is part of. *)
Lemma repr_shows (t a b : string) :
  Py.escape Py.SQ t = t -> Py.escape Py.DQ t = t ->
  Py.contains t (Py.repr (a ++ t ++ b)) = true.
Proof.
  intros Hs Hd. unfold Py.repr.
  destruct (Py.has_char Py.SQ (a ++ t ++ b) && negb (Py.has_char Py.DQ (a ++ t ++ b)));
    apply quoted_shows; assumption.
Qed.

(** [replace] on a string that starts with [old]. *)
Lemma replace_prefix (url old new : string) :
  old <> EmptyString -> Py.startswith url old = true ->
  exists r, Py.replace url old new = new ++ r.
Proof.
  intros Hold H. unfold Py.startswith in H.
  destruct old as [|o old]; [contradiction|].
  destruct url as [|c url]; [discriminate|].
  unfold Py.replace. cbn [Py.replace_from]. rewrite H. eexists. reflexivity.
Qed.

Lemma has_userinfo_at (url : string) : has_userinfo url -> Py.contains "@" url = true.
Proof.
  intros (scheme & userinfo & rest & -> & _).
  apply contains_app_r.
  change ("://" ++ userinfo ++ "@" ++ rest) with ("://" ++ (userinfo ++ "@" ++ rest)).
  apply contains_app_r, contains_middle.
Qed.

End PyFacts.

(* ================================================================= *)
(** ** Lemmas on the building blocks *)

#[local] Arguments String.append : simpl never.
#[local] Arguments Py.join : simpl never.
#[local] Arguments Py.strip : simpl never.
#[local] Arguments Py.str_of_list : simpl never.
#[local] Arguments Py.str_of_Z : simpl never.
#[local] Arguments Py.dirname : simpl never.
#[local] Arguments LOG_FILE : simpl never.
#[local] Arguments prompt_value : simpl never.
#[local] Arguments str_exn : simpl never.
#[local] Arguments Py.replace : simpl never.
#[local] Arguments Py.startswith : simpl never.
#[local] Arguments Py.contains : simpl never.

Section Facts.

Context {X : Type} (P : Platform X).

Lemma launched_app (t u : list event) :
  launched (t ++ u) = launched t +++ launched u.
Proof.
  induction t as [|e t IH]; simpl; [reflexivity|].
  destruct e; simpl; rewrite IH; reflexivity.
Qed.


(** [log_action] never raises, launches nothing, prints nothing and reads
    nothing. *)
Lemma log_action_spec (text : string) (w : World X) :
  exists w' evs,
    log_action P text w = (Ok tt, w')
    /\ stdin w' = stdin w
    /\ console_out w' = console_out w
    /\ trace w' = trace w +++ evs
    /\ log_attempt text evs.
Proof.
  unfold log_action, try_except, bind, call, ret, record; simpl.
  destruct (perform P (Makedirs (Py.dirname LOG_FILE)) (ext w)) as [[msg|] x1] eqn:E1; simpl.
  - eexists _, _. repeat split; simpl; constructor.
  - match goal with |- context [perform P ?c x1] =>
      destruct (perform P c x1) as [[msg|] x2] eqn:E2 end; simpl;
      eexists _, _; (repeat split; simpl);
      try (rewrite <- app_assoc; reflexivity); constructor.
Qed.

Lemma bind_ok {A B} (m : M X A) (k : A -> M X B) w a w1 :
  m w = (Ok a, w1) -> bind m k w = k a w1.
Proof. intros E. unfold bind. rewrite E. reflexivity. Qed.

Lemma bind_raise {A B} (m : M X A) (k : A -> M X B) w e w1 :
  m w = (Raise e, w1) -> bind m k w = (Raise e, w1).
Proof. intros E. unfold bind. rewrite E. reflexivity. Qed.

Lemma console_print_run (text : string) (w : World X) :
  console_print text w =
    (Ok tt, mkWorld (ext w) (stdin w) (console_out w +++ [text]) (trace w)).
Proof. reflexivity. Qed.

Lemma Prompt_ask_line (prompt : string) default (w : World X) line rest :
  stdin w = line :: rest ->
  Prompt_ask prompt default w =
    (Ok (prompt_value line default),
     mkWorld (ext w) rest (console_out w) (trace w +++ [EPrompt prompt])).
Proof. intros E. unfold Prompt_ask. rewrite E. reflexivity. Qed.

Lemma subprocess_run_exit (cmd : list string) (check : bool) (w : World X) rc out x' :
  spawn P cmd (ext w) = (inr (rc, out), x') ->
  subprocess_run P cmd check w =
    (if check && negb (rc =? 0)%Z then Raise (CalledProcessError cmd rc) else Ok rc,
     record (ESpawn cmd (Some rc)) x' w).
Proof.
  intros E. unfold subprocess_run. rewrite E.
  destruct (check && negb (rc =? 0)%Z); reflexivity.
Qed.


(** [run_shell] on a command that exits with a non-zero status: the command
    line is shown, the process is recorded, [CalledProcessError] is raised. *)
Lemma run_shell_fail (cmd : list string) (w : World X) rc out x' :
  spawn P cmd (ext w) = (inr (rc, out), x') -> rc <> 0%Z ->
  run_shell P cmd false w =
    (Raise (CalledProcessError cmd rc),
     mkWorld x' (stdin w) (console_out w ++ ["🚀 Running: " ++ Py.join " " cmd])
       (trace w ++ [ESpawn cmd (Some rc)])).
Proof.
  intros E Hrc. unfold run_shell, bind, console_print. simpl.
  erewrite subprocess_run_exit by (simpl; exact E).
  apply Z.eqb_neq in Hrc. rewrite Hrc. reflexivity.
Qed.


End Facts.

(* ================================================================= *)
(** ** The local sync menu *)

Section Menu.

Context {X : Type} (P : Platform X).







End Menu.

(* ----------------------------------------------------------------- *)
(** *** The loop *)

Section Loop.

Context {X : Type} (P : Platform X).

(** Showing the menu reads one line, or fails at the end of the input. *)
Lemma show_menu_local_reads (repo_path : string) (w : World X) :
  match show_menu_local repo_path w with
  | (Ok _, w') => length (stdin w') < length (stdin w)
  | (Raise _, _) => stdin w = []
  end.
Proof.
  unfold show_menu_local, bind, console_print, Prompt_ask, ret, record. simpl.
  destruct (stdin w); simpl; [reflexivity | lia].
Qed.

(** A menu action never puts lines back into the input. *)
Lemma menu_action_stdin (repo_path choice : string) (w : World X) :
  length (stdin (snd (menu_action P repo_path choice w))) <= length (stdin w).
Proof.
  unfold menu_action, try_except, menu_dispatch.
  destruct (choice =? "1"); [|destruct (choice =? "2"); [|destruct (choice =? "3");
    [|destruct (choice =? "4")]]].
  all: unfold pull_action, push_action, sync_action, exit_action, run_shell, log_action,
         try_except, bind, console_print, Prompt_ask, subprocess_run, call, ret, record.
  all: simpl.
  all: repeat (exec_step; simpl).
  all: try match goal with H : stdin _ = _ |- _ => rewrite H end; simpl; lia.
Qed.

(** The loop ends within as many rounds as there are lines of input, plus
    one: by the user's choice of [4], or by an error that leaves it (the
    end of the input, a process that cannot be started). *)
Lemma menu_loop_total (repo_path : string) (fuel : nat) (w : World X) :
  length (stdin w) < fuel ->
  fst (menu_loop P fuel repo_path w) <> Ok None.
Proof.
  revert w. induction fuel as [|fuel IH]; intros w Hlen; [lia|].
  simpl menu_loop. unfold bind at 1.
  pose proof (show_menu_local_reads repo_path w) as Hs.
  destruct (show_menu_local repo_path w) as [[choice|e] w1]; [|discriminate].
  unfold bind at 1.
  pose proof (menu_action_stdin repo_path choice w1) as Ha.
  destruct (menu_action P repo_path choice w1) as [[[|]|e] w2]; simpl in Ha;
    [apply IH; lia | discriminate | discriminate].
Qed.

End Loop.

(* ================================================================= *)
(** ** Ensuring the checkout, and the token in the URL *)

(** The URL [ensure_local_repo] clones from, when the token goes in. *)
Lemma safe_url_shape (url token : string) :
  plain_https url = true -> Py.truthy token = true ->
  exists r, safe_url url (Some token) = "https://" ++ token ++ "@" ++ r.
Proof.
  intros Hp Ht. unfold safe_url. unfold plain_https in Hp.
  cbn [truthy_opt format_opt]. rewrite Hp, Ht. cbn [andb].
  apply andb_true_iff in Hp. destruct Hp as [Hs _].
  destruct (@PyFacts.replace_prefix url "https://" ("https://" ++ token ++ "@")) as [r E];
    [discriminate | exact Hs |].
  exists r. rewrite E.
  change ("https://" ++ token ++ "@") with ("https://" ++ (token ++ "@")).
  rewrite !PyFacts.append_assoc. reflexivity.
Qed.

Section Checkout.

Context {X : Type} (P : Platform X).

Lemma try_except_raise {A} (body : M X A) handler w e w1 h :
  body w = (Raise e, w1) -> handler e = Some h ->
  try_except body handler w = h w1.
Proof. intros Eb Eh. unfold try_except. rewrite Eb, Eh. reflexivity. Qed.

Lemma call_ok (c : syscall) (w : World X) x' :
  perform P c (ext w) = (None, x') ->
  call P c w = (Ok tt, record (ECall c true) x' w).
Proof. intros E. unfold call. rewrite E. reflexivity. Qed.

(** The message of a [CalledProcessError] shows the command line. *)
Lemma str_exn_shows (t : string) (cmd : list string) (rc : Z) :
  Py.contains t (Py.str_of_list cmd) = true ->
  Py.contains t (str_exn P (CalledProcessError cmd rc)) = true.
Proof.
  intros H. unfold str_exn.
  destruct (rc <? 0)%Z; [destruct (signal_repr P (- rc))|];
    apply PyFacts.contains_app_r, PyFacts.contains_app_l, H.
Qed.

(** C4.  On a valid checkout [ensure_local_repo] returns [True] and leaves
    the world as it found it: no prompt, no subprocess, no call, nothing
    printed.  A second call, on the state the first one left, does the
    same. *)
Theorem ensure_local_repo_valid_checkout (repo_path : string)
    (default_clone_url token : option string) (w : World X) :
  os_path_isdir P repo_path (ext w) = true ->
  os_path_isdir P (Py.path_join repo_path ".git") (ext w) = true ->
  ensure_local_repo P repo_path default_clone_url token w = (Ok true, w)
  /\ ensure_local_repo P repo_path default_clone_url token
       (snd (ensure_local_repo P repo_path default_clone_url token w)) = (Ok true, w).
Proof.
  intros Hd Hg.
  assert (E : ensure_local_repo P repo_path default_clone_url token w = (Ok true, w)).
  { unfold ensure_local_repo, bind, isdir. rewrite Hd, Hg. reflexivity. }
  split; [exact E|]. rewrite E. exact E.
Qed.



(** C1.  A clone with the token in the URL that exits with a non-zero
    status: the message printed for the failure and the text handed to the
    log are made from [str(e)], which spells out the command line, and with
    it the token.  So is the command echoed by [run_shell] before the clone
    starts. *)
Theorem clone_failure_shows_token (repo_path token : string) (w : World X)
    l1 l2 rest x1 rc out x2 :
  os_path_isdir P repo_path (ext w) = false ->
  stdin w = l1 :: l2 :: rest ->
  Py.strip (prompt_value l1 (Some "2")) = "1" ->
  let repo_url := prompt_value l2 None in
  plain_https repo_url = true ->
  Py.truthy token = true ->
  Py.escape Py.SQ token = token ->
  Py.escape Py.DQ token = token ->
  perform P (Makedirs (Py.dirname repo_path)) (ext w) = (None, x1) ->
  let cmd := ["git"; "clone"; safe_url repo_url (Some token); repo_path] in
  spawn P cmd x1 = (inr (rc, out), x2) ->
  rc <> 0%Z ->
  let echoed := "🚀 Running: " ++ Py.join " " cmd in
  let shown := "❌ Failed to clone repository: " ++ str_exn P (CalledProcessError cmd rc) in
  let logged := "Failed to clone repository: " ++ str_exn P (CalledProcessError cmd rc) in
  let w' := snd (ensure_local_repo P repo_path None (Some token) w) in
  fst (ensure_local_repo P repo_path None (Some token) w) = Ok false
  /\ (exists pre, console_out w' = console_out w +++ pre +++ [echoed; shown])
  /\ Py.contains token echoed = true
  /\ Py.contains token shown = true
  /\ (exists t0 evs, trace w' = t0 +++ evs /\ log_attempt logged evs)
  /\ (forall stamp, Py.contains token ("[" ++ stamp ++ "] " ++ logged ++ Py.NL) = true).
Proof.
  intros Hd Hin Hyes repo_url Hplain Htok Hsq Hdq Emk cmd Ecl Hrc echoed shown logged w'.
  destruct (safe_url_shape repo_url token Hplain Htok) as [r Hurl].
  assert (Hlist : Py.contains token (Py.str_of_list cmd) = true).
  { unfold cmd, Py.str_of_list. cbn [map Py.join]. rewrite Hurl.
    apply PyFacts.contains_app_r, PyFacts.contains_app_l.
    do 2 apply PyFacts.contains_app_r, PyFacts.contains_app_r.
    apply PyFacts.contains_app_l, PyFacts.repr_shows; assumption. }
  assert (Hexn := str_exn_shows token cmd rc Hlist).
  assert (Hshown : Py.contains token shown = true)
    by (apply PyFacts.contains_app_r; exact Hexn).
  assert (Hecho : Py.contains token echoed = true).
  { unfold echoed, cmd. cbn [Py.join]. rewrite Hurl.
    do 5 apply PyFacts.contains_app_r.
    apply PyFacts.contains_app_l, (PyFacts.contains_middle token "https://"). }
  assert (Hrun : exists w1 evs,
            ensure_local_repo P repo_path None (Some token) w = (Ok false, w1)
            /\ console_out w1 = console_out w +++
                 ["⚠️ Repository not found at: [yellow]" ++ repo_path ++ "[/yellow]" ++ Py.NL;
                  "1) Clone a new repository"; "2) Cancel / Exit"; echoed; shown]
            /\ trace w1 = (trace w +++
                 [EPrompt (Py.NL ++ "👉 Enter your choice (1-2)");
                  EPrompt (Py.NL ++ "🌐 Enter GitHub repository URL to clone (HTTPS preferred)");
                  ECall (Makedirs (Py.dirname repo_path)) true;
                  ESpawn cmd (Some rc)]) +++ evs
            /\ log_attempt logged evs).
  { unfold ensure_local_repo.
    erewrite bind_ok by (unfold isdir; reflexivity). rewrite Hd. cbv beta iota.
    erewrite bind_ok by reflexivity. cbv beta iota.
    do 3 (erewrite bind_ok by apply console_print_run; tidy).
    erewrite bind_ok by (apply Prompt_ask_line; exact Hin). tidy.
    cbv beta zeta. rewrite Hyes. change (negb ("1" =? "1")) with false. cbv iota.
    erewrite bind_ok by (apply Prompt_ask_line; reflexivity). tidy.
    cbv beta. fold repo_url.
    assert (Htr : Py.truthy repo_url = true).
    { unfold plain_https, Py.startswith in Hplain. destruct repo_url; [discriminate|reflexivity]. }
    rewrite Htr. cbn [negb].
    erewrite try_except_raise; cycle 1.
    - erewrite bind_ok by (apply call_ok; exact Emk). tidy.
      erewrite bind_raise by (apply run_shell_fail with (out := out); [exact Ecl | exact Hrc]).
      tidy. reflexivity.
    - reflexivity.
    - erewrite bind_ok by apply console_print_run. tidy.
      match goal with |- context [bind (log_action P ?t) _ ?w0] =>
        pose proof (log_action_spec P t w0) as (w2 & evs & El & Hin2 & Hout2 & Htr2 & Hlog) end.
      erewrite bind_ok by exact El.
      exists w2, evs. split; [reflexivity|].
      rewrite Hout2, Htr2. tidy. rewrite <- !app_assoc.
      repeat split. exact Hlog. }
  destruct Hrun as (w1 & evs & Erun & Hout & Htrace & Hlog).
  unfold w'. rewrite Erun. cbn [fst snd].
  split; [reflexivity|]. split; [rewrite Hout; exists ["⚠️ Repository not found at: [yellow]" ++ repo_path ++ "[/yellow]" ++ Py.NL;
                  "1) Clone a new repository"; "2) Cancel / Exit"]; reflexivity|].
  split; [exact Hecho|]. split; [exact Hshown|].
  split; [eexists _, evs; split; [exact Htrace | exact Hlog]|].
  intros stamp. do 3 apply PyFacts.contains_app_r. apply PyFacts.contains_app_l.
  apply PyFacts.contains_app_r. exact Hexn.
Qed.


Lemma plain_https_no_userinfo (url : string) :
  plain_https url = true -> ~ has_userinfo url.
Proof.
  unfold plain_https. intros Hp Hu. apply PyFacts.has_userinfo_at in Hu.
  rewrite Hu, andb_false_r in Hp. discriminate.
Qed.

(** The URL of a clone is rewritten only when it is a plain HTTPS URL. *)
Lemma safe_url_changes_only_plain (url : string) (token : option string) :
  safe_url url token <> url -> plain_https url = true.
Proof.
  unfold safe_url, plain_https. intros H.
  destruct (Py.startswith url "https://" && negb (Py.contains "@" url)); [reflexivity|].
  contradiction H. reflexivity.
Qed.

(** The remote repair never raises, and it runs [git remote set-url] only
    after [git remote get-url] exited with 0 and printed a plain HTTPS URL. *)
Lemma fix_local_remote_cases (repo_path token : string) (w : World X) :
  exists t,
    trace (snd (fix_local_remote_with_token P repo_path token w)) = trace w +++ t
    /\ fst (fix_local_remote_with_token P repo_path token w) = Ok tt
    /\ forall new_url,
         In (git_remote_set_url repo_path new_url) (launched t) ->
         exists out x1,
           spawn P (git_remote_get_url repo_path) (ext w) = (inr (0%Z, out), x1)
           /\ plain_https (Py.strip out) = true
           /\ new_url = Py.replace (Py.strip out) "https://" ("https://" ++ token ++ "@").
Proof.
  unfold fix_local_remote_with_token, try_except, log_action, try_except, bind,
    subprocess_check_output, subprocess_run, call, ret, record.
  simpl.
  exec_step; simpl. 2: exec_step; simpl.
  2: destruct (Py.startswith (Py.strip s) "https://" && negb (Py.contains "@" (Py.strip s)))
       eqn:Hplain; simpl.
  all: repeat (exec_step; simpl).
  all: rewrite <- ?app_assoc; simpl.
  all: eexists; (split; [first [reflexivity | symmetry; apply app_nil_r]|]).
  all: split; [reflexivity|].
  all: intros new_url H; in_cases H.
  all: injection H as <-; eexists _, _; split; [reflexivity|]; split; [exact Hplain|reflexivity].
Qed.

(** C6.  The token goes into a URL only if the URL is a plain HTTPS URL.  A
    URL with user-info credentials is handed on as it is by
    [ensure_local_repo], and so is every URL that is not plain HTTPS; the
    remote repair sets a new origin URL only when the current one is plain
    HTTPS, hence never when it has credentials. *)
Theorem token_injection_only_plain_https :
  (forall url token, has_userinfo url -> safe_url url token = url)
  /\ (forall url token, plain_https url = false -> safe_url url token = url)
  /\ (forall url token,
        safe_url url token <> url -> plain_https url = true /\ ~ has_userinfo url)
  /\ (forall repo_path token (w : World X),
        exists t,
          trace (snd (fix_local_remote_with_token P repo_path token w)) = trace w +++ t
          /\ forall new_url,
               In (git_remote_set_url repo_path new_url) (launched t) ->
               exists out x1,
                 spawn P (git_remote_get_url repo_path) (ext w) = (inr (0%Z, out), x1)
                 /\ plain_https (Py.strip out) = true
                 /\ ~ has_userinfo (Py.strip out)
                 /\ new_url = Py.replace (Py.strip out) "https://" ("https://" ++ token ++ "@")).
Proof.
  split; [|split; [|split]].
  - intros url token Hu. unfold safe_url.
    rewrite (PyFacts.has_userinfo_at Hu). cbn [negb]. rewrite andb_false_r. reflexivity.
  - intros url token Hp. unfold safe_url. unfold plain_https in Hp. rewrite Hp. reflexivity.
  - intros url token H. pose proof (safe_url_changes_only_plain _ H) as Hp.
    split; [exact Hp | apply plain_https_no_userinfo, Hp].
  - intros repo_path token w.
    destruct (fix_local_remote_cases repo_path token w) as (t & Ht & _ & Hset).
    exists t. split; [exact Ht|]. intros new_url Hin.
    destruct (Hset new_url Hin) as (out & x1 & Eo & Hp & Hn).
    exists out, x1. repeat split; try assumption. apply plain_https_no_userinfo, Hp.
Qed.

End Checkout.

(* ================================================================= *)
(** ** Branch deletion *)

Section Branches.

Context {X : Type} (P : Platform X).

(** C10.  The name typed is the default branch: [delete_branch] prints the
    warning and returns.  It asked once and did nothing else: no call to
    the API, no subprocess, no write to the log. *)
Theorem delete_branch_refuses_default (repo : Repository) (w : World X) line rest :
  stdin w = line :: rest ->
  prompt_value line None = default_branch repo ->
  delete_branch P repo w =
    (Ok tt,
     mkWorld (ext w) rest
       (console_out w +++
          ["[yellow]Cannot delete the default branch via this tool. Change default first.[/yellow]"])
       (trace w +++ [EPrompt "Branch name to delete"])).
Proof.
  intros Hin Hdef. unfold delete_branch.
  erewrite bind_ok by (apply Prompt_ask_line; exact Hin).
  cbv beta. rewrite Hdef, String.eqb_refl. reflexivity.
Qed.

End Branches.

(* ================================================================= *)
(** ** Upload through a temporary clone *)

Module PathFacts.

Lemma length_append (a b : string) :
  String.length (a ++ b) = String.length a + String.length b.
Proof. induction a as [|c a IH]; simpl; [reflexivity | rewrite IH; reflexivity]. Qed.


End PathFacts.

Section Upload.

Context {X : Type} (P : Platform X).














End Upload.


(* ================================================================= *)
(** ** More on the checkout *)

Section CheckoutMore.

Context {X : Type} (P : Platform X).






End CheckoutMore.


(* ================================================================= *)
(** ** More on the token in the URL *)

Module ReplaceFacts.

Lemma replace_from_none (old new s : string) :
  Py.contains old s = false -> Py.replace_from old new 0 s = s.
Proof.
  induction s as [|c s IH]; intros H; [reflexivity|].
  cbn [Py.contains] in H. apply orb_false_iff in H. destruct H as [Hp Hc].
  cbn [Py.replace_from]. rewrite Hp, (IH Hc). reflexivity.
Qed.

Lemma replace_from_skip (old new a r : string) :
  Py.replace_from old new (String.length a) (a ++ r) = Py.replace_from old new 0 r.
Proof.
  induction a as [|c a IH]; [destruct r; reflexivity|].
  change (String c a ++ r) with (String c (a ++ r)). cbn [String.length Py.replace_from].
  exact IH.
Qed.

(** One occurrence of [old], at the start. *)
Lemma replace_at_start (old new r : string) :
  old <> EmptyString -> Py.contains old r = false ->
  Py.replace (old ++ r) old new = new ++ r.
Proof.
  intros Hold Hr. destruct old as [|o old]; [contradiction|].
  unfold Py.replace. change (String o old ++ r) with (String o (old ++ r)).
  cbn [Py.replace_from].
  change (String o (old ++ r)) with (String o old ++ r).
  rewrite PyFacts.prefix_app.
  replace (String.length (String o old) - 1) with (String.length old) by (simpl; lia).
  rewrite replace_from_skip, (replace_from_none _ _ _ Hr). reflexivity.
Qed.

Lemma contains_cons (sub : string) (x : ascii) (s : string) :
  Py.contains sub (String x s) = String.prefix sub (String x s) || Py.contains sub s.
Proof. reflexivity. Qed.

Lemma contains_char_app (c : ascii) (a b : string) :
  Py.contains (String c EmptyString) (a ++ b) =
    Py.contains (String c EmptyString) a || Py.contains (String c EmptyString) b.
Proof.
  induction a as [|x a IH].
  - destruct b; reflexivity.
  - assert (Hp : forall s, String.prefix (String c EmptyString) (String x s) =
                   if ascii_dec c x then true else false).
    { intros s. cbn [String.prefix]. destruct (ascii_dec c x); [destruct s|]; reflexivity. }
    change (String x a ++ b) with (String x (a ++ b)).
    rewrite !contains_cons, !Hp, IH, orb_assoc. reflexivity.
Qed.

End ReplaceFacts.

(** X4.  Where the token goes.  On a plain HTTPS URL that has [https://] only
    at its start, the URL [ensure_local_repo] clones from is the URL with
    [token@] put in after the scheme and nothing else changed.  Without a
    token ([None] or the empty string) every URL is handed on as it is. *)
Theorem safe_url_inserts_token :
  (forall r token,
     Py.truthy token = true ->
     Py.contains "@" r = false ->
     Py.contains "https://" r = false ->
     safe_url ("https://" ++ r) (Some token) = "https://" ++ token ++ "@" ++ r)
  /\ (forall url token, truthy_opt token = false -> safe_url url token = url).
Proof.
  split.
  - intros r token Ht Hat Hs. unfold safe_url, Py.startswith.
    rewrite PyFacts.prefix_app.
    rewrite (ReplaceFacts.contains_char_app "@" "https://" r), Hat.
    change (Py.contains "@" "https://") with false.
    cbn [orb negb andb truthy_opt format_opt]. rewrite Ht.
    rewrite ReplaceFacts.replace_at_start; [|discriminate|exact Hs].
    rewrite !PyFacts.append_assoc. reflexivity.
  - intros url token Ht. unfold safe_url. rewrite Ht, andb_false_r. reflexivity.
Qed.

(* ================================================================= *)
(** ** More on the start of the local menu *)

Section MenuStart.

Context {X : Type} (P : Platform X).

(** [local_git_menu], with its parts named. *)
Lemma local_git_menu_parts (TOKEN : string) (fuel : nat) :
  local_git_menu P TOKEN fuel =
    bind (Prompt_ask "Local repository path (default)" (Some REPO_PATH)) (fun base_repo_path =>
    bind (fun w => (Ok (os_path_abspath P (os_path_expanduser P base_repo_path (ext w)) (ext w)), w))
      (fun repo_path =>
    bind (ensure_local_repo P repo_path None (Some TOKEN)) (fun ok =>
    if negb ok then ret (Some tt) else
    bind (configure_identity P repo_path) (fun _ =>
    bind (fix_local_remote_with_token P repo_path TOKEN) (fun _ =>
    menu_loop P fuel repo_path))))).
Proof. reflexivity. Qed.

(** Setting the identity never raises and prints at most the warning; the
    e-mail is set only after the name was. *)
Lemma configure_identity_cases (repo_path : string) (w : World X) :
  exists t,
    trace (snd (configure_identity P repo_path w)) = trace w +++ t
    /\ fst (configure_identity P repo_path w) = Ok tt
    /\ stdin (snd (configure_identity P repo_path w)) = stdin w
    /\ (launched t = [git_config repo_path "user.name" "Auto Commit Bot"]
        \/ launched t = [git_config repo_path "user.name" "Auto Commit Bot";
                         git_config repo_path "user.email" "autocommit@example.com"])
    /\ (In (git_config repo_path "user.email" "autocommit@example.com") (launched t)
        <-> In (ESpawn (git_config repo_path "user.name" "Auto Commit Bot") (Some 0%Z)) t)
    /\ (In (ESpawn (git_config repo_path "user.email" "autocommit@example.com") (Some 0%Z)) t
        -> console_out (snd (configure_identity P repo_path w)) = console_out w)
    /\ (~ In (ESpawn (git_config repo_path "user.email" "autocommit@example.com") (Some 0%Z)) t
        -> console_out (snd (configure_identity P repo_path w)) =
             console_out w +++ ["⚠️ Warning: Could not set git identity (non-fatal)."]).
Proof.
  unfold configure_identity, try_except, bind, subprocess_run, console_print, ret, record.
  simpl.
  repeat (exec_step; simpl).
  all: rewrite <- ?app_assoc; simpl.
  all: eexists; (split; [reflexivity|]).
  all: repeat split; auto.
  all: try (intros H; in_cases H; try (inversion H; subst; congruence); fail).
  all: try (intros H; exfalso; apply H; in_tac; fail).
  all: try (intros _; in_tac; fail).
  all: try (right; reflexivity).
Qed.

(** The remote repair never raises. *)
Lemma fix_local_remote_never_raises (repo_path token : string) (w : World X) :
  fst (fix_local_remote_with_token P repo_path token w) = Ok tt.
Proof.
  destruct (fix_local_remote_cases P repo_path token w) as (t & _ & H & _). exact H.
Qed.

(** X5.  Without a checkout there is no menu: when [ensure_local_repo] returns
    [False] (the user cancelled, gave no URL, or the clone failed),
    [local_git_menu] returns at once, in the state [ensure_local_repo]
    left: no identity is set, no remote is touched, no menu is shown. *)
Theorem local_git_menu_stops_without_checkout (TOKEN : string) (fuel : nat)
    (w : World X) l0 rest w2 :
  stdin w = l0 :: rest ->
  let repo_path :=
    os_path_abspath P (os_path_expanduser P (prompt_value l0 (Some REPO_PATH)) (ext w)) (ext w) in
  ensure_local_repo P repo_path None (Some TOKEN)
    (mkWorld (ext w) rest (console_out w)
       (trace w +++ [EPrompt "Local repository path (default)"])) = (Ok false, w2) ->
  local_git_menu P TOKEN fuel w = (Ok (Some tt), w2).
Proof.
  intros Hin repo_path He. rewrite local_git_menu_parts.
  erewrite bind_ok by (apply Prompt_ask_line; exact Hin).
  erewrite bind_ok by reflexivity. tidy.
  erewrite bind_ok by exact He. reflexivity.
Qed.

(** X6.  With a checkout the menu is always reached.  When [ensure_local_repo]
    returns [True] (the checkout was there, or the clone worked), setting
    the commit identity and repairing the remote are best effort: whatever
    [git config] and [git remote] do, [local_git_menu] goes on to the menu
    loop, with the input as [ensure_local_repo] left it and after
    [git remote get-url] was launched. *)
Theorem local_git_menu_reaches_menu (TOKEN : string) (fuel : nat)
    (w : World X) l0 rest w2 :
  stdin w = l0 :: rest ->
  let repo_path :=
    os_path_abspath P (os_path_expanduser P (prompt_value l0 (Some REPO_PATH)) (ext w)) (ext w) in
  ensure_local_repo P repo_path None (Some TOKEN)
    (mkWorld (ext w) rest (console_out w)
       (trace w +++ [EPrompt "Local repository path (default)"])) = (Ok true, w2) ->
  let w3 := snd (configure_identity P repo_path w2) in
  let w4 := snd (fix_local_remote_with_token P repo_path TOKEN w3) in
  local_git_menu P TOKEN fuel w = menu_loop P fuel repo_path w4
  /\ stdin w4 = stdin w2
  /\ In (git_config repo_path "user.name" "Auto Commit Bot") (launched (trace w4))
  /\ In (git_remote_get_url repo_path) (launched (trace w4)).
Proof.
  intros Hin repo_path He w3 w4.
  destruct (configure_identity_cases repo_path w2) as (t & Ht & Hok & Hs & Hl & _).
  fold w3 in Ht, Hs.
  assert (Hf : forall w0, exists st u,
             trace (snd (fix_local_remote_with_token P repo_path TOKEN w0)) =
               trace w0 +++ ESpawn (git_remote_get_url repo_path) st :: u
             /\ stdin (snd (fix_local_remote_with_token P repo_path TOKEN w0)) = stdin w0).
  { intros w0. unfold fix_local_remote_with_token, try_except, log_action, try_except, bind,
      subprocess_check_output, subprocess_run, call, ret, record. simpl.
    repeat first [ exec_step; simpl
                 | match goal with |- context [if ?b then _ else _] => destruct b; simpl end ];
    rewrite <- ?app_assoc; simpl; eexists _, _; split; reflexivity. }
  destruct (Hf w3) as (st & u & Htr & Hst). fold w4 in Htr, Hst.
  split; [|split; [|split]].
  - rewrite local_git_menu_parts.
    erewrite bind_ok by (apply Prompt_ask_line; exact Hin).
    erewrite bind_ok by reflexivity. tidy. fold repo_path.
    erewrite bind_ok by exact He.
    cbn [negb].
    erewrite bind_ok by (rewrite (surjective_pairing (configure_identity P repo_path w2)), Hok;
                         reflexivity).
    fold w3.
    erewrite bind_ok
      by (rewrite (surjective_pairing (fix_local_remote_with_token P repo_path TOKEN w3)),
            fix_local_remote_never_raises; reflexivity).
    reflexivity.
  - rewrite Hst, Hs. reflexivity.
  - rewrite Htr, Ht, !launched_app. apply in_or_app. left. apply in_or_app. right.
    destruct Hl as [Hl|Hl]; rewrite Hl; left; reflexivity.
  - rewrite Htr, launched_app. apply in_or_app. right. left. reflexivity.
Qed.

End MenuStart.


(* ================================================================= *)
(** ** More on the remote repair, the log and the menu *)

Section MenuMore.

Context {X : Type} (P : Platform X).

(** X7.  The remote repair is best effort.  It never raises, prints nothing and
    reads nothing.  It launches [git remote get-url] and at most one more
    command, [git remote set-url]; and it writes to the log exactly when
    that second command exited with status 0. *)
Theorem remote_repair_is_best_effort (repo_path token : string) (w : World X) :
  let r := fix_local_remote_with_token P repo_path token w in
  exists t,
    trace (snd r) = trace w +++ t
    /\ fst r = Ok tt
    /\ console_out (snd r) = console_out w
    /\ stdin (snd r) = stdin w
    /\ (launched t = [git_remote_get_url repo_path]
        \/ exists new_url,
             launched t = [git_remote_get_url repo_path; git_remote_set_url repo_path new_url])
    /\ ((exists t0 evs,
           t = t0 +++ evs /\ log_attempt ("Updated origin remote for " ++ repo_path) evs)
        <-> exists new_url, In (ESpawn (git_remote_set_url repo_path new_url) (Some 0%Z)) t).
Proof.
  unfold fix_local_remote_with_token, try_except, log_action, try_except, bind,
    subprocess_check_output, subprocess_run, call, ret, record.
  simpl.
  repeat first [ exec_step; simpl
               | match goal with |- context [if ?b then _ else _] => destruct b; simpl end ].
  all: rewrite <- ?app_assoc; simpl.
  all: eexists; (split; [reflexivity|]).
  all: split; [reflexivity|]; split; [reflexivity|]; split; [reflexivity|].
  all: split; [first [left; reflexivity | right; eexists; reflexivity]|].
  all: split;
    [ intros (t0 & evs & Ht & Hlog); try (eexists; in_tac; fail);
      exfalso; destruct Hlog; repeat (destruct t0 as [|? t0]; try discriminate Ht)
    | intros [u H]; in_cases H; try (inversion H; subst; congruence); ends_with_log ].
Qed.

(** X8.  The contract of [log_action].  It never raises, whatever the file
    system does; it prints nothing, reads nothing and launches nothing.  It
    first makes the directory of the log,
    [/home/gost/all-project/git-all], and only when that worked it appends
    one line to [git_actions.log] there: the time of the clock in square
    brackets, a space, the text and a newline. *)
Theorem log_action_contract (action_text : string) (w : World X) :
  let r := log_action P action_text w in
  fst r = Ok tt
  /\ console_out (snd r) = console_out w
  /\ stdin (snd r) = stdin w
  /\ launched (trace (snd r)) = launched (trace w)
  /\ exists ok0 x1,
       perform P (Makedirs "/home/gost/all-project/git-all") (ext w) = (ok0, x1)
       /\ match ok0 with
          | Some _ =>
              trace (snd r) =
                trace w +++ [ECall (Makedirs "/home/gost/all-project/git-all") false]
              /\ ext (snd r) = x1
          | None =>
              let line := "[" ++ datetime_now P x1 ++ "] " ++ action_text ++ Py.NL in
              exists ok,
                trace (snd r) =
                  trace w +++
                    [ECall (Makedirs "/home/gost/all-project/git-all") true;
                     ECall (AppendFile "/home/gost/all-project/git-all/git_actions.log" line) ok]
                /\ ext (snd r) =
                     snd (perform P
                            (AppendFile "/home/gost/all-project/git-all/git_actions.log" line) x1)
          end.
Proof.
  unfold log_action, try_except, bind, call, ret, record.
  change (Py.dirname LOG_FILE) with "/home/gost/all-project/git-all".
  change LOG_FILE with "/home/gost/all-project/git-all/git_actions.log".
  cbn [ext stdin console_out trace fst snd].
  destruct (perform P (Makedirs "/home/gost/all-project/git-all") (ext w)) as [[text|] x1] eqn:E1;
    cbn [ext stdin console_out trace fst snd].
  - repeat split. { rewrite launched_app, app_nil_r. reflexivity. }
    eexists _, _. split; [reflexivity|]. split; reflexivity.
  - destruct (perform P (AppendFile "/home/gost/all-project/git-all/git_actions.log"
                 ("[" ++ datetime_now P x1 ++ "] " ++ action_text ++ Py.NL)) x1)
      as [[text|] x2] eqn:E2; cbn [ext stdin console_out trace fst snd].
    all: repeat split; try (rewrite !launched_app, !app_nil_r; reflexivity).
    all: eexists _, _; (split; [reflexivity|]); cbv zeta; eexists; rewrite E2;
      rewrite <- app_assoc; split; reflexivity.
Qed.

(** X9.  Sync: [git push] is among the subprocesses of the action exactly when a
    [git commit] of the action exited with status 0, as for push; and a
    commit is launched only after a pull that exited with status 0. *)
Theorem sync_only_pushes_after_commit (repo_path : string) (w : World X) :
  exists t,
    trace (snd (menu_action P repo_path "3" w)) = trace w +++ t
    /\ (In (git_push repo_path) (launched t)
        <-> exists msg, In (ESpawn (git_commit repo_path msg) (Some 0%Z)) t)
    /\ (forall msg, In (git_commit repo_path msg) (launched t) ->
          In (ESpawn (git_pull repo_path) (Some 0%Z)) t
          /\ In (ESpawn (git_add repo_path) (Some 0%Z)) t)
    /\ (forall msg rc,
          In (ESpawn (git_commit repo_path msg) (Some rc)) t -> rc <> 0%Z ->
          fst (menu_action P repo_path "3" w) = Ok Continue
          /\ (exists pre,
                console_out (snd (menu_action P repo_path "3" w)) =
                  console_out w +++ pre +++
                    ["ℹ️ Nothing to sync (working tree clean)." ++ Py.NL])
          /\ (exists t0 evs,
                t = t0 +++ evs /\ log_attempt ("Nothing to sync in " ++ repo_path) evs)).
Proof.
  unfold menu_action, try_except.
  change (menu_dispatch P repo_path "3") with (sync_action P repo_path).
  unfold sync_action, run_shell, log_action, try_except, bind, console_print, Prompt_ask,
    subprocess_run, call, ret, record.
  simpl.
  repeat (exec_step; simpl).
  all: rewrite <- ?app_assoc; simpl.
  all: eexists; (split; [reflexivity|]).
  all: split;
    [ split;
      [ intros H; in_cases H; eexists; in_tac
      | intros [m H]; in_cases H; try (inversion H; subst; congruence); in_tac ]
    | split;
      [ intros msg H; in_cases H; split; in_tac
      | intros msg rc Hin Hrc; in_cases Hin; inversion Hin; subst; try congruence;
        repeat split; try last_printed; try ends_with_log ] ].
Qed.

(** A menu action ends the loop only on the choice [4], and then the exit
    is the last thing printed and the last thing handed to the log. *)
Lemma menu_action_break (repo_path choice : string) (w w' : World X) :
  menu_action P repo_path choice w = (Ok Break, w') ->
  choice = "4"
  /\ console_out w' = console_out w +++ [Py.NL ++ "👋 Exiting local git menu." ++ Py.NL]
  /\ exists evs,
       trace w' = trace w +++ evs
       /\ log_attempt ("Exited local git menu for " ++ repo_path) evs.
Proof.
  unfold menu_action, try_except, menu_dispatch.
  destruct (choice =? "1"); [|destruct (choice =? "2"); [|destruct (choice =? "3");
    [|destruct (choice =? "4") eqn:E4]]].
  all: unfold pull_action, push_action, sync_action, exit_action, run_shell, log_action,
         try_except, bind, console_print, Prompt_ask, subprocess_run, call, ret, record.
  all: simpl.
  all: repeat (exec_step; simpl).
  all: intros H; try discriminate H.
  all: injection H as <-; apply String.eqb_eq in E4; split; [exact E4|]; tidy.
  all: split; [reflexivity|].
  all: eexists; rewrite <- ?app_assoc; split; [reflexivity | simpl; constructor].
Qed.

(** X10.  The loop of the local menu ends normally in one way only: the user
    chooses [4].  Whenever [menu_loop] returns, the exit notice is the last
    thing printed and the log write for the exit is the last thing done. *)
Theorem menu_loop_ends_by_exit (repo_path : string) (fuel : nat) (w w' : World X) :
  menu_loop P fuel repo_path w = (Ok (Some tt), w') ->
  (exists pre,
     console_out w' = pre +++ [Py.NL ++ "👋 Exiting local git menu." ++ Py.NL])
  /\ (exists t0 evs,
        trace w' = t0 +++ evs
        /\ log_attempt ("Exited local git menu for " ++ repo_path) evs)
  /\ In (EPrompt (Py.NL ++ "👉 Enter your choice (1-4): ")) (trace w').
Proof.
  revert w. induction fuel as [|fuel IH]; intros w H; [discriminate|].
  simpl menu_loop in H. unfold bind at 1 in H.
  destruct (show_menu_local repo_path w) as [[choice|e] w1] eqn:Es; [|discriminate].
  unfold bind at 1 in H.
  destruct (menu_action P repo_path choice w1) as [[[|]|e] w2] eqn:Ea; try discriminate.
  - exact (IH _ H).
  - injection H as <-.
    destruct (menu_action_break _ _ _ Ea) as (_ & Hout & evs & Htr & Hlog).
    split; [eexists; exact Hout|]. split; [eexists _, evs; split; [exact Htr|exact Hlog]|].
    rewrite Htr. apply in_or_app. left.
    revert Es. unfold show_menu_local, bind, console_print, Prompt_ask, ret, record. simpl.
    destruct (stdin w); [discriminate|]. intros Es. injection Es as _ <-. simpl.
    apply in_or_app. right. left. reflexivity.
Qed.

End MenuMore.

(* ================================================================= *)
(** ** More on branch deletion *)

Section BranchesMore.

Context {X : Type} (P : Platform X).

(** X11.  Deleting a branch other than the default one.  The function never
    raises: a failing lookup or a failing delete is printed.  The delete is
    tried only after the lookup of [heads/<name>] worked, and the log is
    written only after the delete worked. *)
Theorem delete_branch_checks_before_deleting (repo : Repository) (w : World X) line rest :
  stdin w = line :: rest ->
  let branch_name := prompt_value line None in
  branch_name <> default_branch repo ->
  let r := delete_branch P repo w in
  let ref := "heads/" ++ branch_name in
  exists t,
    trace (snd r) = trace w +++ EPrompt "Branch name to delete" :: t
    /\ fst r = Ok tt
    /\ launched t = []
    /\ (forall ok, In (ECall (ApiRefDelete (full_name repo) ref) ok) t ->
          In (ECall (ApiGetGitRef (full_name repo) ref) true) t)
    /\ ((exists t0 evs,
           t = t0 +++ evs
           /\ log_attempt ("Deleted branch " ++ branch_name ++ " in " ++ full_name repo) evs)
        <-> In (ECall (ApiRefDelete (full_name repo) ref) true) t)
    /\ (~ In (ECall (ApiRefDelete (full_name repo) ref) true) t ->
        exists text,
          console_out (snd r) =
            console_out w +++ ["[red]Delete branch failed: " ++ text ++ "[/red]"]).
Proof.
  intros Hin branch_name Hne r ref. unfold r, delete_branch.
  erewrite bind_ok by (apply Prompt_ask_line; exact Hin).
  cbv beta. fold branch_name. apply String.eqb_neq in Hne. rewrite Hne. fold ref.
  unfold try_except, log_action, try_except, bind, console_print, call, ret, record.
  simpl.
  repeat (exec_step; simpl).
  all: rewrite <- ?app_assoc; simpl.
  all: eexists; (split; [reflexivity|]).
  all: split; [reflexivity|]; split; [reflexivity|].
  all: split; [intros ok H; in_cases H; in_tac|].
  all: split;
    [ split;
      [ intros (t0 & evs & Ht & Hlog); try (in_tac; fail);
        exfalso; destruct Hlog; repeat (destruct t0 as [|? t0]; try discriminate Ht)
      | intros H; in_cases H; try (inversion H; subst; congruence); ends_with_log ]
    | intros H; try (exfalso; apply H; in_tac; fail); eexists; reflexivity ].
Qed.

End BranchesMore.


(* ================================================================= *)
(** ** More on the upload through a temporary clone *)

Module PathMore.




End PathMore.

Section UploadMore.

Context {X : Type} (P : Platform X).












End UploadMore.


Section UploadResult.

Context {X : Type} (P : Platform X).

Lemma bind_ok_inv {A B} (m : M X A) (k : A -> M X B) w b w' :
  bind m k w = (Ok b, w') -> exists a w1, m w = (Ok a, w1) /\ k a w1 = (Ok b, w').
Proof.
  unfold bind. destruct (m w) as [[a|e] w1]; [|discriminate].
  intros E. exists a, w1. split; [reflexivity | exact E].
Qed.












End UploadResult.

(* ================================================================= *)
(** ** The API manager *)

Section ApiFacts.

Context {X : Type} (P : Platform X) (G : Github X).


(** [Confirm.ask] reads on until a line is a valid answer or the input
    ends; the outside world is not touched. *)
Lemma Confirm_ask_cases {Y} (prompt : string) (default : option bool) (w : World Y) :
  exists refused,
    Forall (fun l => confirm_value l default = None) refused
    /\ let out := console_out w +++ repeat "[prompt.invalid]Please enter Y or N" (length refused) in
       let t := trace w +++ repeat (EPrompt prompt) (length refused) +++ [EPrompt prompt] in
       (stdin w = refused
        /\ Confirm_ask prompt default w =
             (Raise (PyException "EOF when reading a line"), mkWorld (ext w) [] out t))
       \/ (exists line b rest,
             stdin w = refused +++ line :: rest
             /\ confirm_value line default = Some b
             /\ Confirm_ask prompt default w = (Ok b, mkWorld (ext w) rest out t)).
Proof.
  unfold Confirm_ask. destruct w as [x lines out t]. cbn [ext stdin console_out trace].
  revert out t. induction lines as [|line lines IH]; intros out t.
  - exists []. split; [constructor|]. left. simpl. rewrite app_nil_r. split; reflexivity.
  - cbn [Confirm_loop]. destruct (confirm_value line default) as [b|] eqn:Ev.
    + exists []. split; [constructor|]. right. exists line, b, lines. simpl.
      rewrite app_nil_r. repeat split. exact Ev.
    + destruct (IH (out +++ ["[prompt.invalid]Please enter Y or N"]) (t +++ [EPrompt prompt]))
        as (refused & Hall & Hc).
      exists (line :: refused). split; [constructor; assumption|].
      cbv zeta in Hc |- *. cbn [length repeat].
      rewrite <- !app_assoc in Hc. cbn [app] in Hc.
      destruct Hc as [[Hs Hr]|(l & b & rest & Hs & Hv & Hr)].
      * left. split; [rewrite Hs; reflexivity | exact Hr].
      * right. exists l, b, rest. split; [rewrite Hs; reflexivity|]. split; [exact Hv | exact Hr].
Qed.


(** A confirmed answer under the default [False] is a line that reads [y]
    or [Y] once stripped. *)
Lemma confirm_yes (line : string) (default : option bool) :
  confirm_value line default = Some true ->
  default <> Some true -> Py.strip line = "y" \/ Py.strip line = "Y".
Proof.
  unfold confirm_value. intros H Hd.
  assert (Hy : (if (Py.strip line =? "y") || (Py.strip line =? "Y") then Some true
                else if (Py.strip line =? "n") || (Py.strip line =? "N") then Some false
                else None) = Some true -> Py.strip line = "y" \/ Py.strip line = "Y").
  { destruct (Py.strip line =? "y") eqn:E1; [left; apply String.eqb_eq; exact E1|].
    destruct (Py.strip line =? "Y") eqn:E2; [right; apply String.eqb_eq; exact E2|].
    cbn [orb]. destruct ((Py.strip line =? "n") || (Py.strip line =? "N")); discriminate. }
  destruct line as [|c line]; [|exact (Hy H)].
  destruct default as [d|]; [|exact (Hy H)].
  injection H as ->. contradiction Hd. reflexivity.
Qed.


End ApiFacts.



Section ApiCare.

Context {X : Type} (P : Platform X) (G : Github X).















End ApiCare.

Section ApiTheorems.

Context {X : Type} (P : Platform X) (G : Github X).




(** X17.  A repository is deleted only on a typed yes.  [delete_repo_confirm]
    sends at most one request, the deletion of this repository, and only
    when the last line it read says [y] or [Y] once stripped; the empty
    line, for the default, means no.  It returns [True] exactly when the
    deletion was sent and worked. *)
Theorem delete_repo_confirm_needs_yes (repo : RepoInfo) (w : World (Service X)) :
  let r := delete_repo_confirm P G repo w in
  exists used js,
    stdin w = used +++ stdin (snd r)
    /\ requests (snd r) = requests w +++ js
    /\ (js = [] \/ exists outcome, js = [(RepoDelete (full_name repo), outcome)])
    /\ (js <> [] ->
        exists refused line,
          used = refused +++ [line] /\ (Py.strip line = "y" \/ Py.strip line = "Y"))
    /\ (fst r = Ok true <-> js = [(RepoDelete (full_name repo), None)])
    /\ (forall rest, stdin w = EmptyString :: rest -> js = [] /\ fst r = Ok false).
Proof.
  cbv zeta. unfold delete_repo_confirm.
  match goal with |- context [Confirm_ask ?p ?d] =>
    destruct (Confirm_ask_cases p d w)
      as (refused & Hall & [[Hs Hr]|(line & b & rest & Hs & Hv & Hr)]) end.
  - rewrite (bind_raise _ _ _ Hr). cbn [fst snd stdin]. unfold requests. cbn [ext].
    exists refused, []. rewrite !app_nil_r. split; [exact Hs|]. split; [reflexivity|].
    split; [left; reflexivity|]. split; [intros H; contradiction H; reflexivity|].
    split; [split; discriminate|].
    intros rest0 E. rewrite E in Hs. subst refused. inversion Hall; subst. discriminate.
  - rewrite (bind_ok _ _ _ Hr).
    assert (Hfirst : forall rest0, stdin w = EmptyString :: rest0 -> b = false).
    { intros rest0 E. rewrite E in Hs. destruct refused as [|l0 refused].
      - injection Hs as <- _. injection Hv as <-. reflexivity.
      - injection Hs as <- _. inversion Hall; subst. discriminate. }
    destruct b; cbn [negb]; api_unfold; api_run.
    all: cbn [fst snd ext stdin].
    all: exists (refused +++ [line]); eexists.
    all: split; [rewrite <- app_assoc; exact Hs|].
    all: split; [first [reflexivity | symmetry; apply app_nil_r]|].
    all: split; [first [left; reflexivity | right; eexists; reflexivity]|].
    all: split;
      [ intros Hne; first [ contradiction Hne; reflexivity
                          | exists refused, line; split; [reflexivity|];
                            apply (confirm_yes _ Hv); discriminate ]
      | ].
    all: split; [split; intros H; first [reflexivity | discriminate H]|].
    all: intros rest0 E; first [ split; reflexivity
                               | specialize (Hfirst _ E); discriminate Hfirst ].
Qed.



(** X20.  A branch is made from the head of its base.  [create_branch] looks the
    base branch up, and asks for the new reference only when that worked:
    [refs/heads/<name>], at the commit the lookup answered with.  It
    returns the name exactly when the reference was made, and [None]
    otherwise. *)
Theorem create_branch_uses_base (repo : RepoInfo) (base_branch : string)
    (w : World (Service X)) line rest :
  stdin w = line :: rest ->
  let new_branch := prompt_value line None in
  let head := fst (repo_get_branch G (full_name repo) base_branch (fst (ext w))) in
  let r := create_branch P G repo base_branch w in
  exists o js,
    requests (snd r) = requests w +++ (GetBranch (full_name repo) base_branch, o) :: js
    /\ (js = [] \/
        exists sha o',
          head = inr sha
          /\ js = [(CreateGitRef (full_name repo) ("refs/heads/" ++ new_branch) sha, o')])
    /\ ((exists e, head = inl e) -> js = [])
    /\ (fst r = Ok (Some new_branch) <->
        exists sha,
          js = [(CreateGitRef (full_name repo) ("refs/heads/" ++ new_branch) sha, None)])
    /\ (fst r = Ok (Some new_branch) \/ fst r = Ok None).
Proof.
  intros Hin new_branch head r. unfold r, create_branch.
  erewrite bind_ok by (apply Prompt_ask_line; exact Hin). tidy.
  fold new_branch. subst head.
  api_unfold. api_run.
  all: rewrite <- ?app_assoc; cbn [app fst snd].
  all: eexists _, _; split; [reflexivity|].
  all: split; [first [left; reflexivity | right; eexists _, _; split; reflexivity]|].
  all: split; [intros [e' He']; first [reflexivity | discriminate He']|].
  all: split;
    [ split;
      [ intros H; first [discriminate H | eexists; reflexivity]
      | intros [sha' H]; first [discriminate H | reflexivity] ]
    | first [left; reflexivity | right; reflexivity] ].
Qed.


End ApiTheorems.

(* ================================================================= *)
(** ** Trailing slashes *)

Module StripFacts.

Lemma rev_string_app (acc s : string) : Py.rev_string acc s = Py.reverse s ++ acc.
Proof.
  unfold Py.reverse. revert acc. induction s as [|c s IH]; intros acc; [reflexivity|].
  cbn [Py.rev_string]. rewrite (IH (String c acc)), (IH (String c EmptyString)).
  rewrite PyFacts.append_assoc. reflexivity.
Qed.

Lemma reverse_cons (c : ascii) (s : string) :
  Py.reverse (String c s) = Py.reverse s ++ String c EmptyString.
Proof. unfold Py.reverse at 1. cbn [Py.rev_string]. apply rev_string_app. Qed.

Lemma append_empty (s : string) : s ++ EmptyString = s.
Proof.
  induction s as [|c s IH]; [reflexivity|].
  change (String c s ++ EmptyString) with (String c (s ++ EmptyString)).
  rewrite IH. reflexivity.
Qed.

Lemma reverse_app (a b : string) : Py.reverse (a ++ b) = Py.reverse b ++ Py.reverse a.
Proof.
  induction a as [|c a IH].
  - change (EmptyString ++ b) with b. change (Py.reverse EmptyString) with EmptyString.
    rewrite append_empty. reflexivity.
  - change (String c a ++ b) with (String c (a ++ b)).
    rewrite !reverse_cons, IH, PyFacts.append_assoc. reflexivity.
Qed.

Lemma reverse_involutive (s : string) : Py.reverse (Py.reverse s) = s.
Proof.
  induction s as [|c s IH]; [reflexivity|].
  rewrite reverse_cons, reverse_app, IH. reflexivity.
Qed.

Lemma all_sep_app (a b : string) : Py.all_sep (a ++ b) = Py.all_sep a && Py.all_sep b.
Proof.
  induction a as [|c a IH]; [reflexivity|].
  change (String c a ++ b) with (String c (a ++ b)). cbn [Py.all_sep].
  rewrite IH, andb_assoc. reflexivity.
Qed.

Lemma all_sep_reverse (s : string) : Py.all_sep (Py.reverse s) = Py.all_sep s.
Proof.
  induction s as [|c s IH]; [reflexivity|].
  rewrite reverse_cons, all_sep_app, IH. cbn [Py.all_sep].
  rewrite andb_true_r, andb_comm. reflexivity.
Qed.

(** Stripping the leading slashes, with fuel for every character. *)
Lemma lstrip_slashes (n : nat) (s : string) :
  String.length s <= n ->
  exists lead,
    s = lead ++ Py.lstrip_with ["/"] n s
    /\ Py.all_sep lead = true
    /\ String.prefix "/" (Py.lstrip_with ["/"] n s) = false.
Proof.
  revert s. induction n as [|n IH]; intros s Hlen.
  - destruct s; [|simpl in Hlen; lia]. exists EmptyString. repeat split.
  - cbn [Py.lstrip_with find]. destruct (String.prefix "/" s) eqn:Hp.
    + destruct s as [|c s]; [discriminate Hp|].
      cbn [String.prefix] in Hp. destruct (ascii_dec "/" c) as [<-|]; [|discriminate Hp].
      change (String.length "/") with 1. cbn [Py.drop].
      destruct (IH s) as (lead & Hs & Hall & Hno); [simpl in Hlen; lia|].
      exists (String "/" lead). split; [|split; [exact Hall | exact Hno]].
      change (String "/" lead ++ Py.lstrip_with ["/"] n s)
        with (String "/" (lead ++ Py.lstrip_with ["/"] n s)).
      rewrite <- Hs. reflexivity.
    + exists EmptyString. split; [reflexivity|]. split; [reflexivity | exact Hp].
Qed.

Lemma length_reverse (s : string) : String.length (Py.reverse s) = String.length s.
Proof.
  induction s as [|c s IH]; [reflexivity|].
  rewrite reverse_cons, PathFacts.length_append, IH. simpl. lia.
Qed.

(** [s.rstrip("/")]: what is cut off is slashes only, and what is left does
    not end with a slash. *)
Lemma rstrip_slashes (s : string) :
  exists tail,
    s = Py.rstrip_char "/" s ++ tail
    /\ Py.all_sep tail = true
    /\ Py.endswith_sep (Py.rstrip_char "/" s) = false.
Proof.
  unfold Py.rstrip_char.
  destruct (@lstrip_slashes (String.length s) (Py.reverse s)) as (lead & Hs & Hall & Hno);
    [rewrite length_reverse; lia|].
  exists (Py.reverse lead). split; [|split].
  - rewrite <- reverse_app, <- Hs, reverse_involutive. reflexivity.
  - rewrite all_sep_reverse. exact Hall.
  - unfold Py.endswith_sep. rewrite reverse_involutive.
    destruct (Py.lstrip_with ["/"] (String.length s) (Py.reverse s)) as [|c r]; [reflexivity|].
    cbn [String.prefix] in Hno. destruct (ascii_dec "/" c) as [<-|Hne].
    + destruct r; discriminate Hno.
    + apply Ascii.eqb_neq. intros E. apply Hne. symmetry. exact E.
Qed.

End StripFacts.

Section Placeholder.

Context {X : Type} (P : Platform X) (G : Github X).

(** X22.  One slash before [.gitkeep].  [create_folder_placeholder] sends one
    request: the creation of an empty file [<stem>/.gitkeep], where [stem]
    is the folder path typed without the slashes at its end, however many
    there are.  For an empty path, or one of slashes only, the file asked
    for is [/.gitkeep]. *)
Theorem create_folder_placeholder_path (repo : RepoInfo) (w : World (Service X)) l1 l2 rest :
  stdin w = l1 :: l2 :: rest ->
  let folder_path := prompt_value l1 None in
  let branch := prompt_value l2 (Some (default_branch repo)) in
  let r := create_folder_placeholder P G repo w in
  exists stem tail o,
    folder_path = stem ++ tail
    /\ Py.all_sep tail = true
    /\ Py.endswith_sep stem = false
    /\ requests (snd r) =
         requests w +++
           [(CreateFile (full_name repo) (stem ++ "/.gitkeep")
               ("Create folder " ++ folder_path) EmptyString branch, o)]
    /\ (Py.all_sep folder_path = true -> stem = EmptyString).
Proof.
  intros Hin folder_path branch r. unfold r, create_folder_placeholder.
  do 2 (erewrite bind_ok by (apply Prompt_ask_line; first [exact Hin | reflexivity]); tidy).
  fold folder_path. fold branch.
  destruct (StripFacts.rstrip_slashes folder_path) as (tail & Hs & Hall & Hend).
  assert (Hslash : Py.all_sep folder_path = true -> Py.rstrip_char "/" folder_path = EmptyString).
  { intros Ha. rewrite Hs, StripFacts.all_sep_app in Ha. apply andb_true_iff in Ha.
    destruct Ha as [Ha _]. revert Hend Ha. generalize (Py.rstrip_char "/" folder_path).
    intros stem. unfold Py.endswith_sep. rewrite <- (StripFacts.all_sep_reverse stem).
    destruct (Py.reverse stem) as [|c s] eqn:Er.
    - intros _ _. rewrite <- (StripFacts.reverse_involutive stem), Er. reflexivity.
    - cbn [Py.all_sep]. intros -> H. discriminate H. }
  api_unfold. api_run.
  all: cbn [fst snd].
  all: exists (Py.rstrip_char "/" folder_path), tail; eexists.
  all: split; [exact Hs|]; split; [exact Hall|]; split; [exact Hend|].
  all: split; [reflexivity | exact Hslash].
Qed.

End Placeholder.

(* ================================================================= *)
(** ** The input and the journal, along a run *)

Section Quiet.

Context {X : Type} (P : Platform X) (G : Github X).
Variable Q : request * option api_error -> Prop.

Lemma quiet_ret {A} (a : A) : quiet Q (ret (X := Service X) a).
Proof.
  intros w. split; [reflexivity|]. exists []. unfold requests. simpl.
  rewrite app_nil_r. split; [reflexivity | constructor].
Qed.

Lemma quiet_throw {A} (e : exn) : quiet Q (throw (Y := Service X) (A := A) e).
Proof.
  intros w. split; [reflexivity|]. exists []. unfold requests. simpl.
  rewrite app_nil_r. split; [reflexivity | constructor].
Qed.

Lemma quiet_print (text : string) : quiet Q (console_print (X := Service X) text).
Proof.
  intros w. split; [reflexivity|]. exists []. unfold requests. simpl.
  rewrite app_nil_r. split; [reflexivity | constructor].
Qed.

Lemma quiet_rule (text : string) : quiet Q (console_rule (Y := Service X) text).
Proof. apply quiet_print. Qed.

Lemma quiet_prompt (prompt : string) default :
  quiet Q (Prompt_ask (X := Service X) prompt default).
Proof.
  intros w. unfold Prompt_ask, requests, record. destruct (stdin w) as [|l rest] eqn:E; simpl.
  all: split; [lia|]; exists []; rewrite app_nil_r; split; [reflexivity | constructor].
Qed.

Lemma quiet_confirm (prompt : string) default :
  quiet Q (Confirm_ask (Y := Service X) prompt default).
Proof.
  intros w.
  destruct (Confirm_ask_cases prompt default w)
    as (refused & _ & [[Hs Hr]|(line & b & rest & Hs & _ & Hr)]);
    rewrite Hr; unfold requests; cbn [fst snd ext stdin]; rewrite Hs.
  all: split; [rewrite ?length_app; simpl; lia|].
  all: exists []; rewrite app_nil_r; split; [reflexivity | constructor].
Qed.

Lemma quiet_bind {A B} (m : M (Service X) A) (k : A -> M (Service X) B) :
  quiet Q m -> (forall a, quiet Q (k a)) -> quiet Q (bind m k).
Proof.
  intros Hm Hk w. destruct (Hm w) as (Hl & js & Hj & Hq).
  unfold bind. destruct (m w) as [[a|e] w1]; simpl in *.
  - destruct (Hk a w1) as (Hl2 & js2 & Hj2 & Hq2). split; [lia|].
    exists (js +++ js2). rewrite Hj2, Hj, <- app_assoc. split; [reflexivity|].
    apply Forall_app. split; assumption.
  - split; [exact Hl|]. exists js. split; assumption.
Qed.

Lemma quiet_try_except {A} (body : M (Service X) A) handler :
  quiet Q body -> (forall e h, handler e = Some h -> quiet Q h) ->
  quiet Q (try_except body handler).
Proof.
  intros Hb Hh w. destruct (Hb w) as (Hl & js & Hj & Hq).
  unfold try_except. destruct (body w) as [[a|e] w1]; simpl in *.
  - split; [exact Hl|]. exists js. split; assumption.
  - destruct (handler e) as [h|] eqn:Eh; [|split; [exact Hl|]; exists js; split; assumption].
    destruct (Hh e h Eh w1) as (Hl2 & js2 & Hj2 & Hq2). split; [lia|].
    exists (js +++ js2). rewrite Hj2, Hj, <- app_assoc. split; [reflexivity|].
    apply Forall_app. split; assumption.
Qed.

Lemma quiet_try_finally {A} (body : M (Service X) A) final :
  quiet Q body -> quiet Q final -> quiet Q (try_finally body final).
Proof.
  intros Hb Hf w. destruct (Hb w) as (Hl & js & Hj & Hq).
  unfold try_finally. destruct (body w) as [r w1]; simpl in *.
  destruct (Hf w1) as (Hl2 & js2 & Hj2 & Hq2).
  destruct (final w1) as [[u|e] w2]; simpl in *; (split; [lia|]); exists (js +++ js2);
    rewrite Hj2, Hj, <- app_assoc; (split; [reflexivity|]); apply Forall_app; split; assumption.
Qed.

Lemma quiet_attempt {A} (r : request) (op : X -> (api_error + A) * X) :
  (forall o, Q (r, o)) -> quiet Q (attempt r op).
Proof.
  intros Hr w. unfold attempt, requests. destruct (op (fst (ext w))) as [res x']. simpl.
  split; [lia|]. eexists. split; [reflexivity|]. repeat constructor. apply Hr.
Qed.

Lemma quiet_send {A} (r : request) (op : X -> (api_error + A) * X) :
  (forall o, Q (r, o)) -> quiet Q (send r op).
Proof.
  intros Hr. unfold send. apply quiet_bind; [apply quiet_attempt; exact Hr|].
  intros [e|a]; [apply quiet_throw | apply quiet_ret].
Qed.

(** What goes through the platform leaves the input and the journal
    alone. *)
Lemma quiet_call (c : syscall) : quiet Q (call (on_service P) c).
Proof.
  intros w. unfold call, requests, record. cbn [perform on_service].
  destruct (perform P c (fst (ext w))) as [[text|] x']; simpl.
  all: split; [lia|]; exists []; rewrite app_nil_r; split; [reflexivity | constructor].
Qed.

Lemma quiet_call_at (c : World (Service X) -> syscall) :
  quiet Q (fun w => call (on_service P) (c w) w).
Proof. intros w. exact (quiet_call (c w) w). Qed.

Lemma quiet_isdir (path : string) : quiet Q (isdir (on_service P) path).
Proof.
  intros w. split; [reflexivity|]. exists []. unfold requests. simpl.
  rewrite app_nil_r. split; [reflexivity | constructor].
Qed.

Lemma quiet_exists (path : string) : quiet Q (exists_ (on_service P) path).
Proof.
  intros w. split; [reflexivity|]. exists []. unfold requests. simpl.
  rewrite app_nil_r. split; [reflexivity | constructor].
Qed.

Lemma quiet_subprocess_run (cmd : list string) (check : bool) :
  quiet Q (subprocess_run (on_service P) cmd check).
Proof.
  intros w. unfold subprocess_run, requests, record. cbn [spawn on_service].
  destruct (spawn P cmd (fst (ext w))) as [[text|[rc out]] x']; simpl;
    [|destruct (check && negb (rc =? 0)%Z); simpl].
  all: split; [lia|]; exists []; rewrite app_nil_r; split; [reflexivity | constructor].
Qed.

Lemma quiet_check_output (cmd : list string) :
  quiet Q (subprocess_check_output (on_service P) cmd).
Proof.
  intros w. unfold subprocess_check_output, requests, record. cbn [spawn on_service].
  destruct (spawn P cmd (fst (ext w))) as [[text|[rc out]] x']; simpl;
    [|destruct (negb (rc =? 0)%Z); simpl].
  all: split; [lia|]; exists []; rewrite app_nil_r; split; [reflexivity | constructor].
Qed.

Lemma quiet_mkdtemp (prefix : string) :
  quiet Q (fun w : World (Service X) =>
             match tempfile_mkdtemp (on_service P) prefix (ext w) with
             | (inl text, x') => (Raise (PyException text), record (EMkdtemp None) x' w)
             | (inr d, x') => (Ok d, record (EMkdtemp (Some d)) x' w)
             end).
Proof.
  intros w. unfold requests, record. cbn [tempfile_mkdtemp on_service].
  destruct (tempfile_mkdtemp P prefix (fst (ext w))) as [[text|d] x']; simpl.
  all: split; [lia|]; exists []; rewrite app_nil_r; split; [reflexivity | constructor].
Qed.

Lemma quiet_abspath (path : string) :
  quiet Q (fun w : World (Service X) =>
             (Ok (os_path_abspath (on_service P)
                    (os_path_expanduser (on_service P) path (ext w)) (ext w)), w)).
Proof.
  intros w. split; [reflexivity|]. exists []. unfold requests. simpl.
  rewrite app_nil_r. split; [reflexivity | constructor].
Qed.

End Quiet.

(** The pieces of a function, one after the other. *)
Ltac quiet_steps :=
  repeat first
    [ apply quiet_ret | apply quiet_throw | apply quiet_print | apply quiet_rule
    | apply quiet_prompt | apply quiet_confirm
    | apply quiet_call | apply quiet_call_at | apply quiet_isdir | apply quiet_exists
    | apply quiet_subprocess_run | apply quiet_check_output
    | apply quiet_mkdtemp | apply quiet_abspath
    | apply quiet_bind; [|intros ?]
    | apply quiet_try_finally
    | apply quiet_try_except;
      [|let e := fresh "e" in let h := fresh "h" in let E := fresh "E" in
        intros e h E;
        repeat match type of E with
               | (if ?b then _ else _) = Some _ => destruct b
               end;
        first [discriminate E | injection E as <-] ]
    | match goal with
      | |- quiet _ (if ?b then _ else _) => destruct b
      | |- quiet _ (let _ := _ in _) => cbv zeta
      | |- quiet _ (match ?x with inl _ => _ | inr _ => _ end) => destruct x
      | |- quiet _ (match ?x with Some _ => _ | None => _ end) => destruct x
      | |- quiet _ (match ?x with GithubException _ _ => _ | OtherException _ => _ end) =>
          destruct x
      | |- quiet _ (match ?x with [] => _ | _ :: _ => _ end) => destruct x
      end ].

Section QuietPlatform.

Context {X : Type} (P : Platform X).
Variable Q : request * option api_error -> Prop.

Lemma quiet_log_action (text : string) : quiet Q (log_action (on_service P) text).
Proof.
  unfold log_action. quiet_steps.
Qed.

Lemma quiet_run_shell (cmd : list string) (silent : bool) :
  quiet Q (run_shell (on_service P) cmd silent).
Proof. unfold run_shell. quiet_steps. Qed.

Lemma quiet_remove_ignored (d : string) (items : list string) :
  quiet Q (remove_ignored (on_service P) d items).
Proof.
  induction items as [|item items IH]; simpl; [apply quiet_ret|].
  apply quiet_bind; [apply quiet_exists|]. intros e.
  apply quiet_bind; [|intros _; exact IH]. quiet_steps.
Qed.

Lemma quiet_upload (repo : Repository) (file_path branch_name commit_message token : string) :
  quiet Q (upload_file_to_github (on_service P) repo file_path branch_name commit_message token).
Proof.
  unfold upload_file_to_github.
  repeat first [ apply quiet_log_action | apply quiet_remove_ignored | progress quiet_steps ].
Qed.

Lemma quiet_delete_branch (repo : Repository) : quiet Q (delete_branch (on_service P) repo).
Proof.
  unfold delete_branch.
  repeat first [ apply quiet_log_action | progress quiet_steps ].
Qed.

Lemma quiet_ensure_local_repo (repo_path : string) (default_clone_url token : option string) :
  quiet Q (ensure_local_repo (on_service P) repo_path default_clone_url token).
Proof.
  unfold ensure_local_repo.
  repeat first [ apply quiet_log_action | apply quiet_run_shell | progress quiet_steps ].
Qed.

Lemma quiet_fix_local_remote (repo_path token : string) :
  quiet Q (fix_local_remote_with_token (on_service P) repo_path token).
Proof.
  unfold fix_local_remote_with_token.
  repeat first [ apply quiet_log_action | apply quiet_run_shell | progress quiet_steps ].
Qed.

Lemma quiet_menu_action (repo_path choice : string) :
  quiet Q (menu_action (on_service P) repo_path choice).
Proof.
  unfold menu_action, menu_dispatch, pull_action, push_action, sync_action, exit_action.
  repeat first [ apply quiet_log_action | apply quiet_run_shell | progress quiet_steps ].
Qed.

Lemma quiet_menu_loop (fuel : nat) (repo_path : string) :
  quiet Q (menu_loop (on_service P) fuel repo_path).
Proof.
  induction fuel as [|fuel IH]; simpl; [apply quiet_ret|].
  apply quiet_bind; [unfold show_menu_local; quiet_steps|]. intros choice.
  apply quiet_bind; [apply quiet_menu_action|]. intros [|]; [exact IH | apply quiet_ret].
Qed.

Lemma quiet_local_git_menu (TOKEN : string) (fuel : nat) :
  quiet Q (local_git_menu (on_service P) TOKEN fuel).
Proof.
  unfold local_git_menu.
  repeat first [ apply quiet_ensure_local_repo | apply quiet_fix_local_remote
               | apply quiet_menu_loop | progress quiet_steps ].
Qed.

End QuietPlatform.

(** The same for the functions of the API manager, for a [Q] that holds of
    every request but the deletion of a repository. *)
Ltac quiet_api HQ :=
  repeat first
    [ apply quiet_send; intros ?; first [apply HQ; reflexivity | exact I]
    | apply quiet_attempt; intros ?; first [apply HQ; reflexivity | exact I]
    | apply quiet_log_action | apply quiet_upload | apply quiet_delete_branch
    | apply quiet_local_git_menu
    | progress quiet_steps
    | progress unfold path_and_sha, entries_of, decoded_text
    | match goal with
      | |- quiet _ (match ?x with _ => _ end) => destruct x
      end ].

Section QuietApi.

Context {X : Type} (P : Platform X) (G : Github X).
Variable int_of_str : string -> option Z.
Variable TOKEN : string.
Variable Q : request * option api_error -> Prop.
Hypothesis HQ : forall r o, is_delete r = false -> Q (r, o).

Lemma quiet_list_repos (limit : nat) : quiet Q (list_repos P G limit).
Proof. unfold list_repos. quiet_api HQ. Qed.

Lemma quiet_create_repo : quiet Q (create_repo P G).
Proof. unfold create_repo. quiet_api HQ. Qed.

Lemma quiet_rename_repo (repo : RepoInfo) : quiet Q (rename_repo P G repo).
Proof. unfold rename_repo. quiet_api HQ. Qed.

Lemma quiet_change_repo_visibility (repo : RepoInfo) :
  quiet Q (change_repo_visibility P G repo).
Proof. unfold change_repo_visibility. quiet_api HQ. Qed.

Lemma quiet_transfer_repository (repo : RepoInfo) : quiet Q (transfer_repository P G repo).
Proof. unfold transfer_repository. quiet_api HQ. Qed.

Lemma quiet_list_branches (repo : RepoInfo) : quiet Q (list_branches P G repo).
Proof. unfold list_branches. quiet_api HQ. Qed.

Lemma quiet_create_branch (repo : RepoInfo) (base_branch : string) :
  quiet Q (create_branch P G repo base_branch).
Proof. unfold create_branch. quiet_api HQ. Qed.

Lemma quiet_switch_default_branch (repo : RepoInfo) :
  quiet Q (switch_default_branch P G repo).
Proof. unfold switch_default_branch. quiet_api HQ. Qed.

Lemma quiet_create_or_edit_file_via_api (repo : RepoInfo) :
  quiet Q (create_or_edit_file_via_api P G repo).
Proof. unfold create_or_edit_file_via_api, path_and_sha. quiet_api HQ. Qed.

Lemma quiet_create_folder_placeholder (repo : RepoInfo) :
  quiet Q (create_folder_placeholder P G repo).
Proof. unfold create_folder_placeholder. quiet_api HQ. Qed.

Lemma quiet_delete_file_via_api (repo : RepoInfo) : quiet Q (delete_file_via_api P G repo).
Proof. unfold delete_file_via_api, path_and_sha. quiet_api HQ. Qed.

Lemma quiet_list_files_via_api (repo : RepoInfo) : quiet Q (list_files_via_api P G repo).
Proof. unfold list_files_via_api, entries_of. quiet_api HQ. Qed.

Lemma quiet_view_file_via_api (repo : RepoInfo) : quiet Q (view_file_via_api P G repo).
Proof. unfold view_file_via_api, decoded_text. quiet_api HQ. Qed.

Lemma quiet_select_repo : quiet Q (select_repo P G int_of_str).
Proof.
  unfold select_repo.
  repeat first [ apply quiet_list_repos | apply quiet_create_repo | progress quiet_api HQ ].
Qed.

End QuietApi.

(* ================================================================= *)
(** ** The menus *)

Section Menus.

Context {X : Type} (P : Platform X) (G : Github X).
Variable int_of_str : string -> option Z.
Variable TOKEN : string.

Lemma keeps_repos_other (r : request) (o : option api_error) :
  is_delete r = false -> keeps_repos (r, o).
Proof. destruct r; intros H; first [discriminate H | exact I]. Qed.

Lemma anything_goes (r : request) (o : option api_error) :
  is_delete r = false -> (fun _ : request * option api_error => True) (r, o).
Proof. intros _. exact I. Qed.

Lemma quiet_weaken {A} (Q : request * option api_error -> Prop) (m : M (Service X) A) :
  quiet Q m -> quiet (fun _ => True) m.
Proof.
  intros H w. destruct (H w) as (Hl & js & Hj & _). split; [exact Hl|].
  exists js. split; [exact Hj|]. apply Forall_forall. intros; exact I.
Qed.

(** What [delete_repo_confirm] sends: nothing, or a deletion that failed,
    or, when it returns [True], one deletion that worked. *)
Lemma delete_repo_confirm_sends (repo : RepoInfo) (w : World (Service X)) :
  let r := delete_repo_confirm P G repo w in
  length (stdin (snd r)) <= length (stdin w)
  /\ exists js,
       requests (snd r) = requests w +++ js
       /\ ((Forall keeps_repos js /\ fst r <> Ok true)
           \/ (js = [(RepoDelete (full_name repo), None)] /\ fst r = Ok true)).
Proof.
  cbv zeta. unfold delete_repo_confirm.
  match goal with |- context [Confirm_ask ?p ?d] =>
    destruct (Confirm_ask_cases p d w)
      as (refused & _ & [[Hs Hr]|(line & b & rest & Hs & _ & Hr)]) end.
  - rewrite (bind_raise _ _ _ Hr). cbn [fst snd stdin]. unfold requests. cbn [ext].
    split; [simpl; lia|]. exists []. rewrite app_nil_r. split; [reflexivity|].
    left. split; [constructor | discriminate].
  - rewrite (bind_ok _ _ _ Hr).
    assert (Hlen : length rest <= length (stdin w))
      by (rewrite Hs, length_app; simpl; lia).
    destruct b; cbn [negb]; api_unfold; api_run.
    all: cbn [fst snd ext stdin].
    all: split; [exact Hlen|].
    all: eexists; split; [first [reflexivity | symmetry; apply app_nil_r]|].
    all: first [ right; split; reflexivity
               | left; split; [repeat constructor | discriminate] ].
Qed.

Lemma ends_on_delete_of_quiet {A} (last : A -> Prop) (m : M (Service X) A) :
  quiet keeps_repos m -> ends_on_delete last m.
Proof.
  intros H w. destruct (H w) as (Hl & js & Hj & Hq). split; [exact Hl|].
  exists js. split; [exact Hj|]. left. exact Hq.
Qed.

Lemma ends_on_delete_bind {A B} (last : B -> Prop) (m : M (Service X) A)
    (k : A -> M (Service X) B) :
  quiet keeps_repos m -> (forall a, ends_on_delete last (k a)) ->
  ends_on_delete last (bind m k).
Proof.
  intros Hm Hk w. destruct (Hm w) as (Hl & js & Hj & Hq).
  unfold bind. destruct (m w) as [[a|e] w1]; simpl in *.
  - destruct (Hk a w1) as (Hl2 & js2 & Hj2 & Hd). split; [lia|].
    exists (js +++ js2). rewrite Hj2, Hj, <- app_assoc. split; [reflexivity|].
    destruct Hd as [Hq2|(js0 & n & b & -> & Hq0 & Hr & Hb)].
    + left. apply Forall_app. split; assumption.
    + right. exists (js +++ js0), n, b. rewrite <- app_assoc.
      split; [reflexivity|]. split; [apply Forall_app; split; assumption|].
      split; assumption.
  - split; [exact Hl|]. exists js. split; [exact Hj|]. left. exact Hq.
Qed.

Lemma ends_on_delete_then {A B} (last1 : A -> Prop) (last2 : B -> Prop)
    (m : M (Service X) A) (k : A -> M (Service X) B) :
  ends_on_delete last1 m ->
  (forall a, ends_on_delete last2 (k a)) ->
  (forall a, last1 a -> forall w, exists b, k a w = (Ok b, w) /\ last2 b) ->
  ends_on_delete last2 (bind m k).
Proof.
  intros Hm Hk Hlast w. destruct (Hm w) as (Hl & js & Hj & Hd).
  unfold bind. destruct (m w) as [[a|e] w1] eqn:Em; simpl in *.
  - destruct Hd as [Hq|(js0 & n & a' & -> & Hq0 & Hr & Ha)].
    + destruct (Hk a w1) as (Hl2 & js2 & Hj2 & Hd2). split; [lia|].
      exists (js +++ js2). rewrite Hj2, Hj, <- app_assoc. split; [reflexivity|].
      destruct Hd2 as [Hq2|(js0 & n & b & -> & Hq0 & Hr & Hb)].
      * left. apply Forall_app. split; assumption.
      * right. exists (js +++ js0), n, b. rewrite <- app_assoc.
        split; [reflexivity|]. split; [apply Forall_app; split; assumption|].
        split; assumption.
    + injection Hr as <-. destruct (Hlast a Ha w1) as (b & Ek & Hb). rewrite Ek. simpl.
      split; [exact Hl|]. eexists. split; [exact Hj|].
      right. exists js0, n, b. repeat split; assumption.
  - split; [exact Hl|]. exists js. split; [exact Hj|].
    destruct Hd as [Hq|(js0 & n & a' & _ & _ & Hr & _)]; [left; exact Hq | discriminate Hr].
Qed.

(** The branch of the menu that deletes. *)
Lemma ends_on_delete_branch (repo : RepoInfo) :
  ends_on_delete (fun a : loop_ctl * RepoInfo => fst a = Break)
    (bind (delete_repo_confirm P G repo)
       (fun deleted => if deleted then ret (Break, repo) else ret (Continue, repo))).
Proof.
  intros w. destruct (delete_repo_confirm_sends repo w) as (Hl & js & Hj & Hd).
  cbv zeta in Hl, Hj, Hd. unfold bind.
  destruct (delete_repo_confirm P G repo w) as [[[|]|e] w1]; simpl in *.
  all: split; [exact Hl|]; exists js; split; [exact Hj|].
  all: destruct Hd as [[Hq Hne]|[-> Ht]];
    first [ left; exact Hq
          | contradiction Hne; reflexivity
          | discriminate Ht
          | right; exists [], (full_name repo); eexists;
            split; [reflexivity|]; split; [constructor|]; split; reflexivity ].
Qed.

Lemma ends_on_delete_round (repo : RepoInfo) :
  ends_on_delete (fun a : loop_ctl * RepoInfo => fst a = Break)
    (repo_manage_round P G TOKEN repo).
Proof.
  unfold repo_manage_round.
  repeat first
    [ apply ends_on_delete_branch
    | apply ends_on_delete_bind; [quiet_api keeps_repos_other | intros ?]
    | match goal with
      | |- ends_on_delete _ (let _ := _ in _) => cbv zeta
      | |- ends_on_delete _ (if ?b then _ else _) => destruct b
      end
    | apply ends_on_delete_of_quiet;
      repeat first
        [ apply quiet_rename_repo | apply quiet_change_repo_visibility
        | apply quiet_transfer_repository | apply quiet_create_branch
        | apply quiet_switch_default_branch | apply quiet_list_branches
        | apply quiet_create_or_edit_file_via_api | apply quiet_create_folder_placeholder
        | apply quiet_delete_file_via_api | apply quiet_list_files_via_api
        | apply quiet_view_file_via_api
        | apply keeps_repos_other
        | progress quiet_api keeps_repos_other ] ].
Qed.

Lemma ends_on_delete_loop (fuel : nat) (repo : RepoInfo) :
  ends_on_delete (fun o : option unit => o = Some tt)
    (repo_manage_loop P G TOKEN fuel repo).
Proof.
  revert repo. induction fuel as [|fuel IH]; intros repo; cbn [repo_manage_loop].
  - apply ends_on_delete_of_quiet, quiet_ret.
  - apply ends_on_delete_then with (last1 := fun a : loop_ctl * RepoInfo => fst a = Break).
    + apply ends_on_delete_round.
    + intros [[|] repo']; cbn [fst snd]; [apply IH | apply ends_on_delete_of_quiet, quiet_ret].
    + intros [ctl repo'] Hb w. cbn [fst] in Hb. subst ctl. cbn [fst].
      exists (Some tt). split; reflexivity.
Qed.

End Menus.

Section MenuTheorems.

Context {X : Type} (P : Platform X) (G : Github X).
Variable int_of_str : string -> option Z.
Variable TOKEN : string.

(** X23.  Once the repository is deleted the menu is over.  Whatever the user
    types and GitHub answers, [repo_manage_menu] deletes at most one
    repository; the deletion that worked is the last request it sends, and
    with it the menu returns. *)
Theorem repo_manage_menu_stops_after_delete (fuel : nat) (w : World (Service X)) :
  let r := repo_manage_menu P G int_of_str TOKEN fuel w in
  exists js,
    requests (snd r) = requests w +++ js
    /\ (Forall keeps_repos js
        \/ exists js0 full_name,
             js = js0 +++ [(RepoDelete full_name, None)]
             /\ Forall keeps_repos js0
             /\ fst r = Ok (Some tt)).
Proof.
  assert (H : ends_on_delete (fun o : option unit => o = Some tt)
                (repo_manage_menu P G int_of_str TOKEN fuel)).
  { unfold repo_manage_menu. apply ends_on_delete_bind.
    - apply quiet_select_repo. exact keeps_repos_other.
    - intros [repo|]; [apply ends_on_delete_loop | apply ends_on_delete_of_quiet, quiet_ret]. }
  cbv zeta. destruct (H w) as (_ & js & Hj & Hd). exists js. split; [exact Hj|].
  destruct Hd as [Hq|(js0 & n & a & Hjs & Hq & Hr & Ha)]; [left; exact Hq|].
  right. exists js0, n. subst a. repeat split; assumption.
Qed.

Let QT := fun _ : request * option api_error => True.

Lemma quiet_delete_repo_confirm (repo : RepoInfo) : quiet QT (delete_repo_confirm P G repo).
Proof.
  intros w. destruct (delete_repo_confirm_sends P G repo w) as (Hl & js & Hj & _).
  split; [exact Hl|]. exists js. split; [exact Hj|]. apply Forall_forall. intros; exact I.
Qed.

(** After a prompt that was answered, one line less is left. *)
Lemma prompt_then_reads {A} (prompt : string) default (k : string -> M (Service X) A) :
  (forall a, quiet QT (k a)) ->
  forall w r w',
    bind (Prompt_ask prompt default) k w = (Ok r, w') ->
    length (stdin w') < length (stdin w).
Proof.
  intros Hk w r w'. unfold bind, Prompt_ask.
  destruct (stdin w) as [|line rest] eqn:E; [discriminate|].
  intros Ek. destruct (Hk (prompt_value line default)
                         (mkWorld (ext w) rest (console_out w) (trace w +++ [EPrompt prompt])))
    as (Hl & _).
  rewrite Ek in Hl. simpl in Hl |- *. lia.
Qed.

Lemma repo_manage_round_reads (repo : RepoInfo) (w : World (Service X)) r w' :
  repo_manage_round P G TOKEN repo w = (Ok r, w') ->
  length (stdin w') < length (stdin w).
Proof.
  unfold repo_manage_round, console_rule.
  do 2 (erewrite bind_ok by apply console_print_run). intros E.
  apply prompt_then_reads in E; [exact E|]. intros answer. cbv zeta.
  repeat first
    [ apply quiet_delete_repo_confirm
    | match goal with |- quiet _ (if ?b then _ else _) => destruct b end
    | apply quiet_bind; [|intros ?]
    | progress quiet_api (@anything_goes) ].
Qed.

Lemma repo_manage_loop_total (fuel : nat) (repo : RepoInfo) (w : World (Service X)) :
  length (stdin w) < fuel ->
  fst (repo_manage_loop P G TOKEN fuel repo w) <> Ok None.
Proof.
  revert repo w. induction fuel as [|fuel IH]; intros repo w Hlen; [lia|].
  cbn [repo_manage_loop]. unfold bind at 1.
  destruct (repo_manage_round P G TOKEN repo w) as [[[ctl repo']|e] w1] eqn:Er; [|discriminate].
  apply repo_manage_round_reads in Er. cbn [fst snd].
  destruct ctl; [apply IH; lia | discriminate].
Qed.

Lemma repo_manage_menu_total (fuel : nat) (w : World (Service X)) :
  length (stdin w) < fuel ->
  fst (repo_manage_menu P G int_of_str TOKEN fuel w) <> Ok None.
Proof.
  intros Hlen. unfold repo_manage_menu, bind.
  destruct (@quiet_select_repo _ P G int_of_str QT (fun _ _ _ => I) w) as (Hl & _).
  destruct (select_repo P G int_of_str w) as [[[repo|]|e] w1]; simpl in Hl;
    [apply repo_manage_loop_total; lia | discriminate | discriminate].
Qed.

Lemma local_git_menu_total (fuel : nat) (w : World (Service X)) :
  length (stdin w) < fuel ->
  fst (local_git_menu (on_service P) TOKEN fuel w) <> Ok None.
Proof.
  intros Hlen. unfold local_git_menu.
  assert (Hb : forall {A} (m : M (Service X) A) (k : A -> M (Service X) (option unit)) w0,
             quiet QT m ->
             (forall a w1, length (stdin w1) < fuel -> fst (k a w1) <> Ok None) ->
             length (stdin w0) < fuel -> fst (bind m k w0) <> Ok None).
  { intros A m k w0 Hm Hk Hl0. destruct (Hm w0) as (Hl & _). unfold bind.
    destruct (m w0) as [[a|e] w1]; simpl in Hl; [apply Hk; lia | discriminate]. }
  apply Hb; [apply quiet_prompt | | exact Hlen]. intros base_repo_path w1 H1.
  apply Hb; [apply quiet_abspath | | exact H1]. intros repo_path w2 H2.
  apply Hb; [apply quiet_ensure_local_repo | | exact H2]. intros ok w3 H3.
  destruct ok; cbn [negb]; [|discriminate].
  apply Hb; [quiet_steps | | exact H3]. intros _ w4 H4.
  apply Hb; [apply quiet_fix_local_remote | | exact H4]. intros _ w5 H5.
  apply menu_loop_total. exact H5.
Qed.

Lemma goes_through_ret (n : nat) (ctl : main_ctl) :
  ctl <> Stuck -> goes_through n (ret (X := Service X) ctl).
Proof. intros H w _. split; [reflexivity|]. simpl. intros E. injection E as E. exact (H E). Qed.

Lemma goes_through_bind {A} (n : nat) (m : M (Service X) A) (k : A -> M (Service X) main_ctl) :
  quiet QT m -> (forall a, goes_through n (k a)) -> goes_through n (bind m k).
Proof.
  intros Hm Hk w Hlen. destruct (Hm w) as (Hl & _). unfold bind.
  destruct (m w) as [[a|e] w1]; simpl in Hl |- *; [|split; [exact Hl | discriminate]].
  destruct (Hk a w1) as (Hl2 & Hne); [lia|]. split; [lia | exact Hne].
Qed.

Lemma goes_through_inner (n : nat) (inner : M (Service X) (option unit)) :
  quiet QT inner ->
  (forall w, length (stdin w) < n -> fst (inner w) <> Ok None) ->
  goes_through n (bind inner (fun i => ret (after i))).
Proof.
  intros Hq Ht w Hlen. destruct (Hq w) as (Hl & _). specialize (Ht w Hlen). unfold bind.
  destruct (inner w) as [[[u|]|e] w1]; simpl in *.
  - split; [exact Hl | discriminate].
  - contradiction Ht. reflexivity.
  - split; [exact Hl | discriminate].
Qed.

Lemma quiet_repo_manage_menu (fuel : nat) :
  quiet QT (repo_manage_menu P G int_of_str TOKEN fuel).
Proof.
  unfold repo_manage_menu. apply quiet_bind.
  - apply quiet_select_repo. intros; exact I.
  - intros [repo|]; [|apply quiet_ret]. revert repo.
    induction fuel as [|f IH]; intros repo; cbn [repo_manage_loop]; [apply quiet_ret|].
    apply quiet_bind.
    + intros w. destruct (ends_on_delete_round P G TOKEN repo w) as (Hl & js & Hj & _).
      split; [exact Hl|]. exists js. split; [exact Hj|]. apply Forall_forall. intros; exact I.
    + intros [[|] repo']; cbn [fst snd]; [apply IH | apply quiet_ret].
Qed.

(** A round of the main menu reads at least its choice, and the loops
    inside it end. *)
Lemma main_round_goes (fuel : nat) (w : World (Service X)) :
  length (stdin w) <= fuel ->
  match main_round P G int_of_str TOKEN fuel w with
  | (Ok ctl, w') => length (stdin w') < length (stdin w) /\ ctl <> Stuck
  | (Raise _, _) => True
  end.
Proof.
  intros Hlen. unfold main_round, console_rule.
  do 2 (erewrite bind_ok by apply console_print_run). tidy.
  unfold bind at 1, Prompt_ask. cbn [stdin ext console_out trace].
  destruct (stdin w) as [|line rest] eqn:E; [exact I|].
  match goal with |- match ?m ?w1 with _ => _ end =>
    assert (Hg : goes_through fuel m); [|destruct (Hg w1) as (Hl & Hne)] end.
  - cbv zeta.
    repeat first
      [ apply goes_through_ret; discriminate
      | apply goes_through_inner;
        [ first [apply quiet_repo_manage_menu | apply quiet_local_git_menu]
        | first [apply repo_manage_menu_total | apply local_git_menu_total] ]
      | match goal with
        | |- goes_through _ (if ?b then _ else _) => destruct b
        | |- goes_through _ (match ?x with Some _ => _ | None => _ end) => destruct x
        end
      | apply goes_through_bind;
        [ first [ apply quiet_delete_repo_confirm
                | apply quiet_select_repo; intros; exact I
                | quiet_api (@anything_goes) ]
        | intros ? ] ].
  - simpl in Hlen |- *. lia.
  - cbn [stdin] in Hl.
    match goal with |- match ?r with _ => _ end => destruct r as [[ctl|e] w'] end;
      [|exact I].
    simpl in Hl, Hne |- *. split; [lia|]. intros ->. apply Hne. reflexivity.
Qed.

Lemma main_loop_total (fuel : nat) (w : World (Service X)) :
  length (stdin w) < fuel ->
  fst (main_loop P G int_of_str TOKEN fuel w) <> Ok None.
Proof.
  revert w. induction fuel as [|fuel IH]; intros w Hlen; [lia|].
  cbn [main_loop]. unfold bind at 1.
  pose proof (@main_round_goes fuel w) as Hr.
  destruct (main_round P G int_of_str TOKEN fuel w) as [[ctl|e] w1]; [|discriminate].
  destruct Hr as (Hl & Hne); [lia|].
  destruct ctl; [apply IH; lia | discriminate | contradiction Hne; reflexivity].
Qed.

(** X24.  The main menu ends.  With fewer lines of input than rounds allowed,
    [main_menu] does not use up its rounds, nor do the menus inside it:
    every round reads a line, so the run ends with the exit or with an
    error that leaves it, as the end of the input does. *)
Theorem main_menu_total (fuel : nat) (w : World (Service X)) :
  length (stdin w) < fuel ->
  fst (main_menu P G int_of_str TOKEN fuel w) <> Ok None.
Proof.
  intros Hlen. unfold main_menu. erewrite bind_ok by apply console_print_run.
  apply main_loop_total. exact Hlen.
Qed.

(** A round that ends the main menu is the choice [8]. *)
Lemma main_round_exit (fuel : nat) (w w' : World (Service X)) (status : Z) :
  main_round P G int_of_str TOKEN fuel w = (Ok (Exit status), w') ->
  status = 0%Z
  /\ (exists pre, console_out w' = pre +++ ["[bold magenta]Exiting...[/bold magenta]"])
  /\ (exists t0 evs,
        trace w' = t0 +++ evs /\ log_attempt "Exited Unified GitHub Manager" evs).
Proof.
  unfold main_round, console_rule. intros E.
  do 3 (apply bind_ok_inv in E; destruct E as (? & ? & _ & E)).
  cbv zeta in E.
  repeat match type of E with
         | (if ?b then _ else _) _ = _ => destruct b
         end.
  9: { apply bind_ok_inv in E. destruct E as (? & ? & _ & E). discriminate E. }
  8: { apply bind_ok_inv in E. destruct E as (u & w1 & Ep & E).
       rewrite console_print_run in Ep. injection Ep as _ <-.
       match type of E with bind (log_action _ ?t) _ ?w0 = _ =>
         destruct (log_action_spec (on_service P) t w0)
           as (w2 & evs & El & _ & Hout & Htr & Hlog) end.
       erewrite bind_ok in E by exact El. injection E as <- <-.
       split; [reflexivity|]. split; [eexists; exact Hout|].
       eexists _, evs. split; [exact Htr | exact Hlog]. }
  all: repeat first
    [ discriminate E
    | match type of E with
      | bind _ _ _ = _ => apply bind_ok_inv in E; destruct E as (? & ? & _ & E); cbv beta in E
      | (match ?x with _ => _ end) _ = _ => destruct x
      | ret (after ?i) _ = _ => destruct i
      end ].
Qed.

(** X25.  The only way out is the exit.  When [main_menu] ends (which is through
    [sys.exit]) the status is 0, the farewell is the last thing printed and
    the log write for the exit is the last thing done. *)
Theorem main_menu_ends_by_exit (fuel : nat) (w w' : World (Service X)) (status : Z) :
  main_menu P G int_of_str TOKEN fuel w = (Ok (Some status), w') ->
  status = 0%Z
  /\ (exists pre, console_out w' = pre +++ ["[bold magenta]Exiting...[/bold magenta]"])
  /\ (exists t0 evs,
        trace w' = t0 +++ evs /\ log_attempt "Exited Unified GitHub Manager" evs).
Proof.
  unfold main_menu. erewrite bind_ok by apply console_print_run.
  generalize (mkWorld (ext w) (stdin w)
                (console_out w +++ ["[bold magenta]GitHub Manager — Unified Edition[/bold magenta]"])
                (trace w)).
  clear w. induction fuel as [|fuel IH]; intros w E; [discriminate E|].
  cbn [main_loop] in E. apply bind_ok_inv in E. destruct E as (ctl & w1 & Er & E).
  destruct ctl as [|s|]; [exact (IH _ E) | | discriminate E].
  injection E as <- <-. exact (@main_round_exit _ _ _ _ Er).
Qed.

End MenuTheorems.

Section Selection.

Context {X : Type} (P : Platform X) (G : Github X).
Variable int_of_str : string -> option Z.

Lemma nth_error_numbered {A B} (f : nat * A -> B) (l : list A) (start k : nat) (a : A) :
  nth_error l k = Some a ->
  nth_error (map f (combine (seq start (length l)) l)) k = Some (f (start + k, a)).
Proof.
  revert start k. induction l as [|x l IH]; intros start k H; [destruct k; discriminate H|].
  destruct k as [|k]; cbn [length seq combine map nth_error] in *.
  - injection H as ->. rewrite Nat.add_0_r. reflexivity.
  - rewrite (IH (S start) k H). f_equal. f_equal. f_equal. lia.
Qed.

Lemma list_repos_ok (limit : nat) (w : World (Service X)) all x1 :
  user_get_repos G (fst (ext w)) = (inr all, x1) ->
  list_repos P G limit w =
    (Ok (firstn limit all),
     mkWorld (x1, requests w +++ [(GetRepos, None)]) (stdin w) (console_out w) (trace w)).
Proof.
  intros H. unfold list_repos, try_except, send, attempt, bind, requests. rewrite H. reflexivity.
Qed.

(** X26.  The repository chosen is the one shown with that number.  When the
    list of the repositories comes back with something in it,
    [select_repo] prints them in a table numbered from 1 and reads a
    number.  For a number in the table it returns the repository of the
    row with that number, and sends nothing more; for any other number but
    0, and for what is no number, it returns [None] and sends nothing
    more. *)
Theorem select_repo_picks_by_number (w : World (Service X)) all x1 line rest :
  user_get_repos G (fst (ext w)) = (inr all, x1) ->
  let repos := firstn 200 all in
  repos <> [] ->
  stdin w = line :: rest ->
  let choice := prompt_value line (Some "1") in
  let r := select_repo P G int_of_str w in
  let asked := requests w +++ [(GetRepos, None)] in
  (forall idx,
     int_of_str choice = Some idx -> (1 <= idx <= Z.of_nat (length repos))%Z ->
     exists repo rows,
       fst r = Ok (Some repo)
       /\ In repo all
       /\ console_out (snd r) =
            console_out w +++
              [Table ("Your Repositories (Top " ++ Py.str_of_Z (Z.of_nat (length repos)) ++ ")")
                 ["No"; "Name"; "Visibility"] rows;
               "[blue]0[/blue] → Create new repository"]
       /\ nth_error rows (Z.to_nat (idx - 1)) =
            Some [Py.str_of_Z idx; name repo;
                  if private repo then "Private 🔒" else "Public 🌍"]
       /\ requests (snd r) = asked /\ stdin (snd r) = rest)
  /\ (forall idx,
        int_of_str choice = Some idx -> (idx < 0 \/ Z.of_nat (length repos) < idx)%Z ->
        fst r = Ok None /\ requests (snd r) = asked /\ stdin (snd r) = rest)
  /\ (int_of_str choice = None ->
        fst r = Ok None /\ requests (snd r) = asked /\ stdin (snd r) = rest).
Proof.
  intros Hget repos Hne Hin choice r asked. unfold r, select_repo.
  erewrite bind_ok by (apply list_repos_ok; exact Hget). fold repos.
  destruct repos as [|r0 rs] eqn:Er; [contradiction Hne; reflexivity|]. rewrite <- Er in *.
  do 2 (erewrite bind_ok by apply console_print_run; tidy).
  erewrite bind_ok by (apply Prompt_ask_line; exact Hin). tidy. fold choice.
  split; [|split].
  - intros idx Hi Hr. rewrite Hi.
    assert (H0 : (idx =? 0)%Z = false) by (apply Z.eqb_neq; lia).
    assert (H1 : ((1 <=? idx)%Z && (idx <=? Z.of_nat (length repos))%Z) = true)
      by (apply andb_true_iff; split; apply Z.leb_le; lia).
    rewrite H0, H1.
    destruct (nth_error repos (Z.to_nat (idx - 1))) as [repo|] eqn:En;
      [|apply nth_error_None in En; lia].
    exists repo. eexists. unfold ret. cbn [fst snd ext stdin console_out]. unfold requests.
    cbn [ext snd]. split; [reflexivity|]. split.
    { apply nth_error_In in En. rewrite <- (firstn_skipn 200 all). apply in_or_app. left.
      exact En. }
    split; [unfold repos_table; rewrite <- app_assoc; reflexivity|].
    split; [|split; reflexivity].
    rewrite (nth_error_numbered _ _ 1 _ En). cbn [fst snd]. repeat f_equal. lia.
  - intros idx Hi Hr. rewrite Hi.
    assert (H0 : (idx =? 0)%Z = false) by (apply Z.eqb_neq; lia).
    assert (H1 : ((1 <=? idx)%Z && (idx <=? Z.of_nat (length repos))%Z) = false).
    { apply andb_false_iff. destruct Hr; [left; apply Z.leb_gt; lia | right; apply Z.leb_gt; lia]. }
    rewrite H0, H1. unfold bind, console_print, ret, requests. cbn [fst snd ext stdin].
    repeat split.
  - intros Hi. rewrite Hi. unfold bind, console_print, ret, requests. cbn [fst snd ext stdin].
    repeat split.
Qed.

End Selection.

(* ================================================================= *)
(** ** Runs in the small world

    Each theorem above that has a premise is used here on a concrete run,
    with the premises computed. *)

(** The scenarios of a push on a dirty tree and of a sync on a clean one. *)
Example push_dirty_tree :
  let w := snd (menu_action Sim.platform "/r" "2" (Sim.checkout [0%Z; 0%Z; 0%Z] ["fix"])) in
  launched (trace w) = [git_add "/r"; git_commit "/r" "fix"; git_push "/r"]
  /\ last (console_out w) EmptyString = "✅ Successfully pushed to GitHub!" ++ Py.NL.
Proof. vm_compute. split; reflexivity. Qed.

Example sync_clean_tree :
  let r := menu_action Sim.platform "/r" "3" (Sim.checkout [0%Z; 0%Z; 1%Z] [EmptyString]) in
  fst r = Ok Continue
  /\ launched (trace (snd r)) =
       [git_pull "/r"; git_add "/r"; git_commit "/r" "Auto sync via Unified Manager"]
  /\ last (console_out (snd r)) EmptyString = "ℹ️ Nothing to sync (working tree clean)." ++ Py.NL.
Proof. vm_compute. repeat split; reflexivity. Qed.

Example local_git_menu_run :
  let r := local_git_menu Sim.platform "T" 3
             (Sim.checkout [] ["/r"; "2"; "msg"; "4"]) in
  fst r = Ok (Some tt)
  /\ launched (trace (snd r)) =
       [git_config "/r" "user.name" "Auto Commit Bot";
        git_config "/r" "user.email" "autocommit@example.com";
        git_remote_get_url "/r";
        git_remote_set_url "/r" "https://T@github.com/u/r.git";
        git_add "/r"; git_commit "/r" "msg"; git_push "/r"].
Proof. vm_compute. split; reflexivity. Qed.

(** The token [ghp_SECRET] shows in the message printed for a failed clone. *)
Lemma clone_failure_shows_token_witness :
  Py.contains "ghp_SECRET"
    ("❌ Failed to clone repository: " ++
       str_exn Sim.platform
         (CalledProcessError
            ["git"; "clone"; safe_url (prompt_value "https://github.com/u/r.git" None)
                               (Some "ghp_SECRET"); "/tmp/x"] 128)) = true.
Proof.
  assert (H := @clone_failure_shows_token _ Sim.platform "/tmp/x" "ghp_SECRET" Sim.clone_fails
                 "1" "https://github.com/u/r.git" [] _ 128%Z EmptyString _
                 eq_refl eq_refl eq_refl eq_refl eq_refl eq_refl eq_refl eq_refl eq_refl).
  assert (Hrc : 128%Z <> 0%Z) by discriminate.
  destruct (H Hrc) as (_ & _ & _ & Hshown & _). exact Hshown.
Defined.



(** A checkout that is already there. *)
Lemma ensure_local_repo_valid_checkout_witness :
  ensure_local_repo Sim.platform "/r" None (Some "T") (Sim.checkout [] []) =
    (Ok true, Sim.checkout [] []).
Proof.
  apply (@ensure_local_repo_valid_checkout _ Sim.platform "/r" None (Some "T") (Sim.checkout [] []));
    reflexivity.
Defined.


(** A URL that carries a user and a password. *)
Lemma token_injection_only_plain_https_witness :
  has_userinfo "https://user:pw@github.com/u/r.git"
  /\ safe_url "https://user:pw@github.com/u/r.git" (Some "T") =
       "https://user:pw@github.com/u/r.git".
Proof.
  assert (H : has_userinfo "https://user:pw@github.com/u/r.git")
    by (exists "https", "user:pw", "github.com/u/r.git"; repeat split; reflexivity).
  split; [exact H|].
  apply (proj1 (token_injection_only_plain_https Sim.platform)). exact H.
Defined.




(** The user types the default branch, [main]. *)
Lemma delete_branch_refuses_default_witness :
  trace (snd (delete_branch Sim.platform Sim.repo (Sim.checkout [] ["main"]))) =
    [EPrompt "Branch name to delete"].
Proof.
  rewrite (@delete_branch_refuses_default _ Sim.platform Sim.repo (Sim.checkout [] ["main"]) "main" []);
    reflexivity.
Defined.




(** The token [T] in the URL of a repository. *)
Lemma safe_url_inserts_token_witness :
  safe_url "https://github.com/u/r.git" (Some "T") = "https://T@github.com/u/r.git".
Proof.
  exact (proj1 safe_url_inserts_token "github.com/u/r.git" "T" eq_refl eq_refl eq_refl).
Defined.

(** No checkout at the path typed, and the user answers [n]. *)
Lemma local_git_menu_stops_without_checkout_witness :
  fst (local_git_menu Sim.platform "T" 1 (Sim.world [] [] true ["/tmp/x"; "n"])) = Ok (Some tt).
Proof.
  set (w := Sim.world [] [] true ["/tmp/x"; "n"]).
  pose (w1 := mkWorld (ext w) ["n"] (console_out w)
                (trace w +++ [EPrompt "Local repository path (default)"])).
  assert (He : ensure_local_repo Sim.platform "/tmp/x" None (Some "T") w1 =
                 (Ok false, snd (ensure_local_repo Sim.platform "/tmp/x" None (Some "T") w1)))
    by (vm_compute; reflexivity).
  rewrite (@local_git_menu_stops_without_checkout _ Sim.platform "T" 1 w "/tmp/x" ["n"] _
             eq_refl He).
  reflexivity.
Defined.

(** A checkout at the path typed; the user leaves the menu at once. *)
Lemma local_git_menu_reaches_menu_witness :
  fst (local_git_menu Sim.platform "T" 1 (Sim.checkout [] ["/r"; "4"])) = Ok (Some tt).
Proof.
  set (w := Sim.checkout [] ["/r"; "4"]).
  pose (w1 := mkWorld (ext w) ["4"] (console_out w)
                (trace w +++ [EPrompt "Local repository path (default)"])).
  assert (He : ensure_local_repo Sim.platform "/r" None (Some "T") w1 = (Ok true, w1))
    by (vm_compute; reflexivity).
  destruct (@local_git_menu_reaches_menu _ Sim.platform "T" 1 w "/r" ["4"] w1 eq_refl He)
    as [E _].
  rewrite E. vm_compute. reflexivity.
Defined.

(** The remote is plain HTTPS and [git remote set-url] exits with 0. *)
Lemma remote_repair_is_best_effort_witness :
  exists t0 evs,
    trace (snd (fix_local_remote_with_token Sim.platform "/r" "T" (Sim.checkout [] []))) =
      t0 +++ evs
    /\ log_attempt "Updated origin remote for /r" evs.
Proof.
  destruct (remote_repair_is_best_effort Sim.platform "/r" "T" (Sim.checkout [] []))
    as (t & Ht & _ & _ & _ & _ & Hlog).
  change (trace (Sim.checkout [] []) +++ t) with t in Ht.
  rewrite Ht. apply (proj2 Hlog).
  exists "https://T@github.com/u/r.git".
  rewrite <- Ht. vm_compute. right. left. reflexivity.
Defined.

(** A sync on a clean tree: the commit exits with 1. *)
Lemma sync_only_pushes_after_commit_witness :
  fst (menu_action Sim.platform "/r" "3" (Sim.checkout [0%Z; 0%Z; 1%Z] ["m"])) = Ok Continue.
Proof.
  destruct (sync_only_pushes_after_commit Sim.platform "/r" (Sim.checkout [0%Z; 0%Z; 1%Z] ["m"]))
    as (t & Ht & _ & _ & H).
  apply (H "m" 1%Z); [|discriminate].
  change (trace (Sim.checkout [0%Z; 0%Z; 1%Z] ["m"]) +++ t) with t in Ht.
  rewrite <- Ht. vm_compute. right. right. right. left. reflexivity.
Defined.

(** The user chooses [4] at the first menu. *)
Lemma menu_loop_ends_by_exit_witness :
  In (EPrompt (Py.NL ++ "👉 Enter your choice (1-4): "))
    (trace (snd (menu_loop Sim.platform 1 "/r" (Sim.checkout [] ["4"])))).
Proof.
  assert (E : menu_loop Sim.platform 1 "/r" (Sim.checkout [] ["4"]) =
                (Ok (Some tt), snd (menu_loop Sim.platform 1 "/r" (Sim.checkout [] ["4"]))))
    by (vm_compute; reflexivity).
  destruct (menu_loop_ends_by_exit Sim.platform "/r" 1 (Sim.checkout [] ["4"]) E) as (_ & _ & H).
  exact H.
Defined.

(** The user types [dev], which is not the default branch. *)
Lemma delete_branch_checks_before_deleting_witness :
  fst (delete_branch Sim.platform Sim.repo (Sim.checkout [] ["dev"])) = Ok tt.
Proof.
  assert (Hne : prompt_value "dev" None <> default_branch Sim.repo)
    by (vm_compute; discriminate).
  destruct (@delete_branch_checks_before_deleting _ Sim.platform Sim.repo
              (Sim.checkout [] ["dev"]) "dev" [] eq_refl Hne)
    as (t & _ & H & _).
  exact H.
Defined.



(** The user first types something else, then [Y] between blanks. *)
Lemma delete_repo_confirm_needs_yes_witness :
  fst (delete_repo_confirm Sim.platform Hub.github Hub.repo (Hub.world true ["what?"; " Y "])) =
    Ok true.
Proof.
  destruct (delete_repo_confirm_needs_yes Sim.platform Hub.github Hub.repo
              (Hub.world true ["what?"; " Y "]))
    as (used & js & _ & Hj & _ & _ & Hiff & _).
  apply Hiff.
  change (requests (Hub.world true ["what?"; " Y "]) +++ js) with js in Hj.
  rewrite <- Hj. vm_compute. reflexivity.
Defined.



(** The branch [dev], from [main]. *)
Lemma create_branch_uses_base_witness :
  exists o js,
    requests (snd (create_branch Sim.platform Hub.github Hub.repo "main"
                     (Hub.world true ["dev"]))) =
      (GetBranch "u/r" "main", o) :: js.
Proof.
  destruct (@create_branch_uses_base _ Sim.platform Hub.github Hub.repo "main"
              (Hub.world true ["dev"]) "dev" [] eq_refl)
    as (o & js & Hj & _).
  exists o, js. exact Hj.
Defined.


(** A folder typed with two slashes at its end. *)
Lemma create_folder_placeholder_path_witness :
  exists stem tail o,
    "src/utils//" = stem ++ tail
    /\ Py.endswith_sep stem = false
    /\ requests (snd (create_folder_placeholder Sim.platform Hub.github Hub.repo
                        (Hub.world true ["src/utils//"; EmptyString]))) =
         [(CreateFile "u/r" (stem ++ "/.gitkeep") "Create folder src/utils//" EmptyString "main",
           o)].
Proof.
  destruct (@create_folder_placeholder_path _ Sim.platform Hub.github Hub.repo
              (Hub.world true ["src/utils//"; EmptyString]) "src/utils//" EmptyString []
              eq_refl)
    as (stem & tail & o & Hs & _ & He & Hj & _).
  exists stem, tail, o. split; [exact Hs|]. split; [exact He | exact Hj].
Defined.

(** The first repository of the table. *)
Lemma select_repo_picks_by_number_witness :
  exists repo,
    fst (select_repo Sim.platform Hub.github Hub.int_of_str (Hub.world true ["1"])) =
      Ok (Some repo)
    /\ In repo [Hub.repo].
Proof.
  assert (Hne : firstn 200 [Hub.repo] <> []) by discriminate.
  destruct (@select_repo_picks_by_number _ Sim.platform Hub.github Hub.int_of_str
              (Hub.world true ["1"]) [Hub.repo] _ "1" [] eq_refl Hne eq_refl)
    as (H & _).
  destruct (H 1%Z eq_refl) as (repo & rows & Hr & Hin & _); [vm_compute; split; discriminate|].
  exists repo. split; [exact Hr | exact Hin].
Defined.

(** The user lists the repositories, then leaves. *)
Lemma main_menu_total_witness :
  fst (main_menu Sim.platform Hub.github Hub.int_of_str "T" 3 (Hub.world true ["7"; "8"])) <>
    Ok None.
Proof.
  apply (@main_menu_total _ Sim.platform Hub.github Hub.int_of_str "T" 3
           (Hub.world true ["7"; "8"])).
  simpl. lia.
Defined.

(** The user leaves at once. *)
Lemma main_menu_ends_by_exit_witness :
  exists pre,
    console_out (snd (main_menu Sim.platform Hub.github Hub.int_of_str "T" 1
                        (Hub.world true ["8"]))) =
      pre +++ ["[bold magenta]Exiting...[/bold magenta]"].
Proof.
  set (w := Hub.world true ["8"]).
  assert (E : main_menu Sim.platform Hub.github Hub.int_of_str "T" 1 w =
                (Ok (Some 0%Z), snd (main_menu Sim.platform Hub.github Hub.int_of_str "T" 1 w)))
    by (vm_compute; reflexivity).
  destruct (@main_menu_ends_by_exit _ Sim.platform Hub.github Hub.int_of_str "T" 1 w _ _ E)
    as (_ & H & _).
  exact H.
Defined.

(** In the repository menu the user deletes the repository. *)
Lemma repo_manage_menu_stops_after_delete_witness :
  fst (repo_manage_menu Sim.platform Hub.github Hub.int_of_str "T" 1
         (Hub.world true ["1"; "g"; "3"; "y"])) = Ok (Some tt).
Proof.
  destruct (repo_manage_menu_stops_after_delete Sim.platform Hub.github Hub.int_of_str "T" 1
              (Hub.world true ["1"; "g"; "3"; "y"]))
    as (js & Hj & [Hq|(js0 & n & _ & _ & Hr)]); [|exact Hr].
  exfalso.
  change (requests (Hub.world true ["1"; "g"; "3"; "y"]) +++ js) with js in Hj.
  rewrite <- Hj in Hq. revert Hq. vm_compute. intros Hq.
  inversion Hq as [|e1 l1 _ H1]; subst. inversion H1 as [|e2 l2 H2 _]; subst. exact H2.
Defined.
